(** * FourCIPP: the 4C input document model

    A shallow embedding of [fourcipp/fourc_input.py] (class [FourCInput])
    and of the legacy section dispatcher [fourcipp/legacy_io/__init__.py].

    Python values are an inductive type, Python dictionaries are
    insertion-ordered association lists with unique keys, exceptions are
    an explicit error type, and the methods that mutate a document are
    written in a state-and-exception monad whose state survives a raise
    (as a Python object does).  Calls to the logger have no effect on
    the document and are left out. *)

From Stdlib Require Import ZArith SpecFloat Ascii String DecimalString.
From stdpp Require Import base tactics option list strings sorting.

Local Open Scope string_scope.

(** ** Python values *)

(** The canonical value tree: None, bool, int, float, str, list and dict
    (with string keys, in insertion order). *)
#[warnings="-register-all"] Inductive value : Type :=
| VNone
| VBool (b : bool)
| VInt (z : Z)
| VFloat (f : spec_float)
| VStr (s : string)
| VList (l : list value)
| VDict (d : list (string * value)).

(** A Python [dict] with string keys. *)
Abbreviation pydict := (list (string * value)).

Definition is_dict (v : value) : bool :=
  match v with VDict _ => true | _ => false end.

Definition is_str (v : value) : bool :=
  match v with VStr _ => true | _ => false end.

(** [type(v).__name__] *)
Definition type_short_name (v : value) : string :=
  match v with
  | VNone => "NoneType"
  | VBool _ => "bool"
  | VInt _ => "int"
  | VFloat _ => "float"
  | VStr _ => "str"
  | VList _ => "list"
  | VDict _ => "dict"
  end.

(** [str(type(v))] *)
Definition type_name (v : value) : string :=
  "<class '" ++ type_short_name v ++ "'>".

(** ** Exceptions *)

Inductive exn : Type :=
| KeyError (key : string)
| IndexError (msg : string)
| TypeError (msg : string)
| ValueError (msg : string)
| NotImplementedError (msg : string)
| AttributeError (msg : string)
| UnknownSectionException (msg : string)
(** [ValidationError] raised by [FourCInput.validate] for entry [index]
    of the inlined legacy section [section]. *)
| ValidationError (section : string) (index : nat) (entry : value)
(** Any exception raised inside the record codecs or the schema engine. *)
| ExternalError (msg : string).

Inductive result (A : Type) : Type :=
| Ok (a : A)
| Err (e : exn).
Arguments Ok {A} a.
Arguments Err {A} e.

Definition is_ok {A} (r : result A) : bool :=
  match r with Ok _ => true | Err _ => false end.

Definition rbind {A B} (r : result A) (k : A -> result B) : result B :=
  match r with Ok a => k a | Err e => Err e end.

(** [[f(x) for x in l]]: stops at the first element that raises. *)
Fixpoint map_result {A B} (f : A -> result B) (l : list A) : result (list B) :=
  match l with
  | [] => Ok []
  | x :: l' =>
      rbind (f x) (fun y => rbind (map_result f l') (fun ys => Ok (y :: ys)))
  end.

(** ** Dictionaries *)

Module PyDict.

(** [d[k]], [None] standing for [KeyError]. *)
Fixpoint get (k : string) (d : pydict) : option value :=
  match d with
  | [] => None
  | (k', v) :: d' => if decide (k = k') then Some v else get k d'
  end.

(** [k in d] *)
Definition mem (k : string) (d : pydict) : bool :=
  match get k d with Some _ => true | None => false end.

(** [d[k] = v]: a key already present keeps its position, a new key goes
    to the end. *)
Fixpoint set (k : string) (v : value) (d : pydict) : pydict :=
  match d with
  | [] => [(k, v)]
  | (k', v') :: d' =>
      if decide (k = k') then (k', v) :: d' else (k', v') :: set k v d'
  end.

(** The dictionary left by [d.pop(k)]. *)
Fixpoint remove (k : string) (d : pydict) : pydict :=
  match d with
  | [] => []
  | (k', v') :: d' =>
      if decide (k = k') then d' else (k', v') :: remove k d'
  end.

(** [list(d)] *)
Definition keys (d : pydict) : list string := d.*1.

(** [d1 | d2]: a copy of [d1] updated with the items of [d2] in order. *)
Definition union (d1 d2 : pydict) : pydict :=
  foldl (fun acc kv => set kv.1 kv.2 acc) d1 d2.

(** [d1 == d2] for dictionaries with unique keys: the same keys with
    the same values, whatever the order. *)
Definition same (d1 d2 : pydict) : Prop :=
  forall k, get k d1 = get k d2.

End PyDict.

(** ** Strings *)

(** [c.upper()] on an ASCII letter; other bytes are kept. *)
Definition upper_ascii (c : ascii) : ascii :=
  let n := Ascii.nat_of_ascii c in
  if (97 <=? n)%nat && (n <=? 122)%nat then Ascii.ascii_of_nat (n - 32) else c.

(** [s.upper()] *)
Fixpoint upper (s : string) : string :=
  match s with
  | EmptyString => EmptyString
  | String c s' => String (upper_ascii c) (upper s')
  end.

(** [s.startswith(p)] *)
Definition startswith (s p : string) : bool := String.prefix p s.

(** [s.endswith(p)] *)
Definition endswith (s p : string) : bool :=
  String.prefix (String.rev p) (String.rev s).

(** [sep.join(l)] *)
Fixpoint str_join (sep : string) (l : list string) : string :=
  match l with
  | [] => ""
  | [x] => x
  | x :: l' => x ++ sep ++ str_join sep l'
  end.

(** [sorted(l)] on strings. *)
Definition sorted (l : list string) : list string := merge_sort String.le l.

(** ** difflib.get_close_matches *)

(** The standard library routine behind the "did you mean" hints, on
    the characters of the strings.  A similarity ratio [2.0 * M / T] is
    kept as the pair of naturals [(M, T)] and compared exactly; Python
    compares the rounded quotients, which order the same way for strings
    of any realistic length. *)
Module Difflib.

Abbreviation chars := (list ascii).

Definition count_of (c : ascii) (b : chars) : nat :=
  length (filter (fun x => x = c) b).

(** The elements that [SequenceMatcher.__chain_b] drops from [b2j]
    (autojunk): for [len(b) >= 200], those occurring more than
    [len(b) // 100 + 1] times. *)
Definition popular (b : chars) (c : ascii) : bool :=
  (200 <=? length b)%nat && (length b / 100 + 1 <? count_of c b)%nat.

(** Length of the run of equal elements at the heads of [a] and [b]
    whose elements pass [ok]. *)
Fixpoint run (ok : ascii -> bool) (a b : chars) : nat :=
  match a, b with
  | x :: a', y :: b' =>
      if bool_decide (x = y) && ok y then S (run ok a' b') else 0
  | _, _ => 0
  end.

(** The first maximum of [run] over the start positions [j, j+1, ...]
    in [b], for a fixed start [i] in [a]; [best] is [(i, j, k)]. *)
Fixpoint scan_b (ok : ascii -> bool) (a b : chars) (i j : nat)
    (best : nat * nat * nat) : nat * nat * nat :=
  match b with
  | [] => best
  | _ :: b' =>
      let k := run ok a b in
      scan_b ok a b' i (S j) (if (best.2 <? k)%nat then (i, j, k) else best)
  end.

Fixpoint scan_a (ok : ascii -> bool) (a b : chars) (i : nat)
    (best : nat * nat * nat) : nat * nat * nat :=
  match a with
  | [] => best
  | _ :: a' => scan_a ok a' b (S i) (scan_b ok a b i 0 best)
  end.

(** The two loops of [find_longest_match] that grow the block over
    equal neighbours. *)
Fixpoint extend_left (ra rb : chars) (n : nat) : nat :=
  match ra, rb with
  | x :: ra', y :: rb' =>
      if bool_decide (x = y) then extend_left ra' rb' (S n) else n
  | _, _ => n
  end.

(** [find_longest_match] on the windows [a] and [b]: the longest block
    of equal elements none of which is [pop], the earliest in [a] and
    then in [b], grown over equal neighbours. *)
Definition find_longest_match (pop : ascii -> bool) (a b : chars)
    : nat * nat * nat :=
  let '(i, j, k) := scan_a (fun c => negb (pop c)) a b 0 (0, 0, 0)%nat in
  let l := extend_left (rev (take i a)) (rev (take j b)) 0 in
  let r := extend_left (drop (i + k) a) (drop (j + k) b) 0 in
  ((i - l)%nat, (j - l)%nat, (l + k + r)%nat).

(** The total size of the blocks of [get_matching_blocks]. *)
Fixpoint matching (fuel : nat) (pop : ascii -> bool) (a b : chars) : nat :=
  match fuel with
  | 0 => 0
  | S fuel' =>
      let '(i, j, k) := find_longest_match pop a b in
      match k with
      | 0 => 0
      | _ =>
          (k + matching fuel' pop (take i a) (take j b)
             + matching fuel' pop (drop (i + k) a) (drop (j + k) b))%nat
      end
  end.

(** [ratio()], [quick_ratio()] and [real_quick_ratio()] of
    [SequenceMatcher(None, a, b)], as (matches, total length). *)
Definition ratio (a b : chars) : nat * nat :=
  (matching (S (length a)) (popular b) a b, (length a + length b)%nat).

Fixpoint remove_one (c : ascii) (b : chars) : option chars :=
  match b with
  | [] => None
  | y :: b' =>
      if bool_decide (c = y) then Some b'
      else match remove_one c b' with
           | Some r => Some (y :: r)
           | None => None
           end
  end.

Fixpoint multiset_matches (a avail : chars) : nat :=
  match a with
  | [] => 0
  | x :: a' =>
      match remove_one x avail with
      | Some avail' => S (multiset_matches a' avail')
      | None => multiset_matches a' avail
      end
  end.

Definition quick_ratio (a b : chars) : nat * nat :=
  (multiset_matches a b, (length a + length b)%nat).

Definition real_quick_ratio (a b : chars) : nat * nat :=
  (length a `min` length b, (length a + length b)%nat).

(** [_calculate_ratio(matches, length)] as a fraction: [1.0] for two
    empty sequences. *)
Definition fraction (r : nat * nat) : nat * nat :=
  match r.2 with 0 => (1, 1) | _ => (2 * r.1, r.2) end%nat.

(** [r >= 0.3] *)
Definition ge_cutoff (r : nat * nat) : bool :=
  let '(n, d) := fraction r in (3 * d <=? 10 * n)%nat.

(** [(r1, x1) < (r2, x2)] on the scored candidates. *)
Definition scored_lt (p q : (nat * nat) * string) : bool :=
  let '(n1, d1) := fraction p.1 in
  let '(n2, d2) := fraction q.1 in
  (n1 * d2 <? n2 * d1)%nat
  || ((n1 * d2 =? n2 * d1)%nat && String.ltb p.2 q.2).

(** The candidates of [possibilities] that pass the three tests, with
    their scores, in the order of [possibilities]. *)
Definition scored (word : string) (possibilities : list string)
    : list ((nat * nat) * string) :=
  let b := list_ascii_of_string word in
  omap (fun x =>
          let a := list_ascii_of_string x in
          if ge_cutoff (real_quick_ratio a b) && ge_cutoff (quick_ratio a b)
             && ge_cutoff (ratio a b)
          then Some (ratio a b, x) else None)
       possibilities.

(** [max(result)]: the first of the greatest candidates. *)
Definition best (l : list ((nat * nat) * string)) : option ((nat * nat) * string) :=
  foldl (fun acc p =>
           match acc with
           | None => Some p
           | Some q => if scored_lt q p then Some p else Some q
           end) None l.

(** [difflib.get_close_matches(word, possibilities, n=1, cutoff=0.3)] *)
Definition get_close_matches (word : string) (possibilities : list string)
    : list string :=
  match best (scored word possibilities) with
  | Some p => [p.2]
  | None => []
  end.

End Difflib.

(** ** The catalog, the converter and the record codecs *)

(** What the document model imports from modules that are not part of
    this development: the section catalog ([fourcipp.SECTIONS],
    [LEGACY_SECTIONS], [ALL_SECTIONS], [CONFIG["json_schema"]]), the type
    converter ([fourcipp.utils.converter.Converter.__call__]), the
    record codecs of [fourcipp.legacy_io] and the schema engine
    ([jsonschema_rs]).  They are parameters of everything below. *)
Record Env : Type := {
  SECTIONS : list string;
  LEGACY_SECTIONS : list string;
  ALL_SECTIONS : list string;
  json_schema : pydict;
  type_converter : value -> value;
  read_particle : value -> result value;
  read_node : value -> result value;
  read_element : value -> result value;
  read_node_topology : value -> result value;
  read_domain : value -> result value;
  read_knotvectors : value -> result value;
  write_particle : value -> result value;
  write_node : value -> result value;
  write_element : value -> result value;
  write_node_topology : value -> result value;
  write_knotvectors : value -> result value;
  write_domain : value -> result value;
  jsonschema_rs_validate : pydict -> pydict -> result unit
}.

(** [iter(v)]: the elements a [for] loop or a comprehension sees. *)
Definition iter_values (v : value) : result (list value) :=
  match v with
  | VList l => Ok l
  | VStr s => Ok ((fun c => VStr (String c "")) <$> list_ascii_of_string s)
  | VDict d => Ok (VStr <$> PyDict.keys d)
  | _ => Err (TypeError ("'" ++ type_short_name v ++ "' object is not iterable"))
  end.

(** [isinstance(v, collections.abc.Sequence)] *)
Definition is_sequence (v : value) : bool :=
  match v with VList _ | VStr _ => true | _ => false end.

(** [fourcipp.utils.validation.validate_using_json_schema] *)
Definition validate_using_json_schema (E : Env) (data json_schema : pydict)
    : result bool :=
  rbind (jsonschema_rs_validate E json_schema data) (fun _ => Ok true).

(** ** The legacy section dispatcher *)

Section LegacyIO.
Context (E : Env).

Definition _iterate_and_evaluate (function : value -> result value)
    (iterable : value) : result value :=
  rbind (iter_values iterable) (fun lines =>
  rbind (map_result function lines) (fun l => Ok (VList l))).

Definition interpret_legacy_section (legacy_section : string)
    (section_data : value) : result value :=
  if negb (bool_decide (legacy_section ∈ LEGACY_SECTIONS E)) then
    Err (ValueError ("Section " ++ legacy_section
           ++ " is not a known legacy section. Current legacy sections are "
           ++ str_join ", " (LEGACY_SECTIONS E)))
  else if bool_decide (legacy_section = "PARTICLES") then
    _iterate_and_evaluate (read_particle E) section_data
  else if bool_decide (legacy_section = "NODE COORDS") then
    _iterate_and_evaluate (read_node E) section_data
  else if endswith legacy_section "ELEMENTS" then
    _iterate_and_evaluate (read_element E) section_data
  else if endswith legacy_section "NODE TOPOLOGY" then
    _iterate_and_evaluate (read_node_topology E) section_data
  else if endswith legacy_section "DOMAIN" then
    read_domain E section_data
  else if endswith legacy_section "KNOTVECTORS" then
    read_knotvectors E section_data
  else
    Err (NotImplementedError
           ("Legacy section " ++ legacy_section ++ " is not implemented.")).

Definition expected_list : exn :=
  TypeError "Expected the section data to be of type list.".

Definition inline_legacy_section (legacy_section : string)
    (section_data : value) : result value :=
  if bool_decide (legacy_section = "PARTICLES") then
    if negb (is_sequence section_data) then Err expected_list
    else _iterate_and_evaluate (write_particle E) section_data
  else if bool_decide (legacy_section = "NODE COORDS") then
    if negb (is_sequence section_data) then Err expected_list
    else _iterate_and_evaluate (write_node E) section_data
  else if endswith legacy_section "ELEMENTS" then
    if negb (is_sequence section_data) then Err expected_list
    else _iterate_and_evaluate (write_element E) section_data
  else if endswith legacy_section "NODE TOPOLOGY" then
    if negb (is_sequence section_data) then Err expected_list
    else _iterate_and_evaluate (write_node_topology E) section_data
  else if endswith legacy_section "KNOTVECTORS" then
    if negb (is_sequence section_data) then Err expected_list
    else write_knotvectors E section_data
  else if endswith legacy_section "DOMAIN" then
    if negb (is_dict section_data)
    then Err (TypeError "Expected a dictionary for the section data.")
    else write_domain E section_data
  else
    Err (ValueError ("Section " ++ legacy_section
           ++ " is not a known legacy section. Current legacy sections are "
           ++ str_join ", " (LEGACY_SECTIONS E))).

(** The dictionary is updated in place under its own keys, so the order
    of the keys is kept. *)
Definition inline_legacy_sections (legacy_sections : pydict) : result pydict :=
  map_result (fun kv =>
                rbind (inline_legacy_section kv.1 kv.2)
                      (fun v => Ok (kv.1, v)))
             legacy_sections.

End LegacyIO.

(** ** The document *)

(** An object of class [FourCInput]: its two dictionaries. *)
Record FourCInput : Type := {
  _sections : pydict;
  _legacy_sections : pydict
}.

(** The argument [other] of [combine_sections] and [overwrite_sections]:
    any value, a dictionary among them, or another document. *)
Inductive other_arg : Type :=
| OtherValue (v : value)
| OtherInput (o : FourCInput).

(** A method of a document: it returns or raises, and leaves the
    document in a new state either way. *)
Definition M (A : Type) : Type := FourCInput -> result A * FourCInput.

Definition ret {A} (a : A) : M A := fun self => (Ok a, self).

Definition raise {A} (e : exn) : M A := fun self => (Err e, self).

Definition bind {A B} (m : M A) (k : A -> M B) : M B :=
  fun self =>
    match m self with
    | (Ok a, self') => k a self'
    | (Err e, self') => (Err e, self')
    end.

(** The receiver, and a computation that does not touch it. *)
Definition this : M FourCInput := fun self => (Ok self, self).

Definition lift {A} (r : result A) : M A := fun self => (r, self).

Notation "x <- m ;; k" := (bind m (fun x => k))
  (at level 100, m at next level, right associativity).
Notation "m ;;; k" := (bind m (fun _ => k))
  (at level 100, right associativity).

(** [for x in l: body(x)] *)
Fixpoint for_each {A} (l : list A) (body : A -> M unit) : M unit :=
  match l with
  | [] => ret ()
  | x :: l' => body x ;;; for_each l' body
  end.

Definition type_name_FourCInput : string :=
  "<class 'fourcipp.fourc_input.FourCInput'>".

Section Document.
Context (E : Env).

Definition is_section_known (section_name : string) : bool :=
  bool_decide (section_name ∈ SECTIONS E) || startswith section_name "FUNCT".

(** The class attribute [known_sections]. *)
Definition known_sections : list string := ALL_SECTIONS E.

(** [FourCInput()] *)
Definition new : FourCInput :=
  {| _sections := []; _legacy_sections := [] |}.

(** The property [sections]. *)
Definition sections (self : FourCInput) : pydict :=
  PyDict.union (_sections self) (_legacy_sections self).

Definition get_section_names (self : FourCInput) : list string :=
  sorted (PyDict.keys (_legacy_sections self)
            ++ PyDict.keys (_sections self))%list.

Definition items (self : FourCInput) : pydict := sections self.

(** [item in self] *)
Definition contains (self : FourCInput) (item : string) : bool :=
  bool_decide
    (item ∈ (PyDict.keys (_legacy_sections self)
               ++ PyDict.keys (_sections self))%list).

(** [difflib.get_close_matches(key.upper(), names, n=1, cutoff=0.3)[0]] *)
Definition closest (key : string) (names : list string) : result string :=
  match Difflib.get_close_matches (upper key) names with
  | m :: _ => Ok m
  | [] => Err (IndexError "list index out of range")
  end.

(** The exception of the "Unknown section" branches of [__setitem__]
    and [pop]. *)
Definition unknown_section (key : string) : exn :=
  match closest key (ALL_SECTIONS E) with
  | Ok m =>
      UnknownSectionException
        ("Unknown section '" ++ key ++ "'. Did you mean '" ++ m
           ++ "'? Call FourCInputFile.known_sections for a complete list.")
  | Err e => e
  end.

Definition set_sections (key : string) (v : value) : M unit :=
  fun self =>
    (Ok (), {| _sections := PyDict.set key v (_sections self);
               _legacy_sections := _legacy_sections self |}).

Definition set_legacy_sections (key : string) (v : value) : M unit :=
  fun self =>
    (Ok (), {| _sections := _sections self;
               _legacy_sections := PyDict.set key v (_legacy_sections self) |}).

(** [self[key] = value] *)
Definition setitem (key : string) (value : value) : M unit :=
  let value := type_converter E value in
  if is_section_known key then
    set_sections key value
  else if bool_decide (key ∈ LEGACY_SECTIONS E) then
    match value with
    | VList l =>
        if negb (existsb is_dict l) then
          match interpret_legacy_section E key value with
          | Ok r => set_legacy_sections key r
          | Err e => raise e
          end
        else set_legacy_sections key value
    | VDict _ => set_legacy_sections key value
    | _ => raise (TypeError ("Section " ++ key ++ " is not a list or dict."))
    end
  else raise (unknown_section key).

(** [self[key]] *)
Definition getitem (self : FourCInput) (key : string) : result value :=
  if is_section_known key then
    match PyDict.get key (_sections self) with
    | Some v => Ok v
    | None => Err (KeyError key)
    end
  else
    match PyDict.get key (_legacy_sections self) with
    | Some v => Ok v
    | None =>
        let sections := str_join (String "010" " - ") (get_section_names self) in
        match closest key (ALL_SECTIONS E) with
        | Ok m =>
            Err (UnknownSectionException
                   ("Section '" ++ key ++ "' not set. Did out mean '" ++ m
                      ++ "'? The set sections are:" ++ String "010" " - "
                      ++ sections))
        | Err e => Err e
        end
    end.

(** [self.pop(key, default_value)]; [None] is the sentinel [NotSet] of a
    call without default. *)
Definition pop (key : string) (default_value : option value) : M value :=
  fun self =>
    match PyDict.get key (_sections self) with
    | Some v =>
        (Ok v, {| _sections := PyDict.remove key (_sections self);
                  _legacy_sections := _legacy_sections self |})
    | None =>
        match PyDict.get key (_legacy_sections self) with
        | Some v =>
            (Ok v, {| _sections := _sections self;
                      _legacy_sections :=
                        PyDict.remove key (_legacy_sections self) |})
        | None =>
            if bool_decide (key ∈ known_sections) then
              match default_value with
              | Some d => (Ok d, self)
              | None =>
                  match closest key (get_section_names self) with
                  | Ok m =>
                      (Err (UnknownSectionException
                              ("Section '" ++ key ++ "' not set. Did out mean '"
                                 ++ m ++ "'?")), self)
                  | Err e => (Err e, self)
                  end
              end
            else (Err (unknown_section key), self)
        end
    end.

(** [other.items()] for a dictionary or a document. *)
Definition other_items (other : other_arg) : option pydict :=
  match other with
  | OtherValue (VDict d) => Some d
  | OtherValue _ => None
  | OtherInput o => Some (items o)
  end.

Definition other_type_name (other : other_arg) : string :=
  match other with
  | OtherValue v => type_name v
  | OtherInput _ => type_name_FourCInput
  end.

Definition overwrite_sections (other : other_arg) : M unit :=
  match other_items other with
  | Some kvs => for_each kvs (fun kv => setitem kv.1 kv.2)
  | None =>
      raise (TypeError ("Cannot overwrite sections from "
                          ++ other_type_name other ++ "."))
  end.

(** The section names of [other] that [combine_sections] looks at. *)
Definition other_sections_names (other : other_arg) : option (list string) :=
  match other with
  | OtherValue (VDict d) => Some (PyDict.keys d)
  | OtherValue _ => None
  | OtherInput o => Some (get_section_names o)
  end.

(** [set(self.get_section_names()) & set(names)], listed in the order
    of the receiver's names (Python leaves the order of a set open). *)
Definition doubled_defined_sections (self : FourCInput) (names : list string)
    : list string :=
  filter (fun n => n ∈ names) (remove_dups (get_section_names self)).

Definition combine_sections (other : other_arg) : M unit :=
  fun self =>
    match other_sections_names other with
    | None =>
        (Err (TypeError ("Cannot combine sections between "
                           ++ type_name_FourCInput ++ " and "
                           ++ other_type_name other ++ ".")), self)
    | Some names =>
        match doubled_defined_sections self names with
        | [] => overwrite_sections other self
        | doubled =>
            (Err (ValueError
                    ("Section(s) " ++ str_join ", " doubled
                       ++ " are defined in both FourCInput objects. In order to join the FourCInput objects remove the section(s) in one of them.")),
             self)
        end
    end.

(** [copy.deepcopy(self)]: a new object with the same contents. *)
Definition copy (self : FourCInput) : FourCInput := self.

(** [FourCInput(sections)] *)
Definition init (sections : option pydict) : result FourCInput :=
  match sections with
  | None => Ok new
  | Some kvs =>
      match for_each kvs (fun kv => setitem kv.1 kv.2) new with
      | (Ok _, self) => Ok self
      | (Err e, _) => Err e
      end
  end.

(** [self + other] *)
Definition add (self : FourCInput) (other : FourCInput) : result FourCInput :=
  match combine_sections (OtherInput other) (copy self) with
  | (Ok _, copied_object) => Ok copied_object
  | (Err e, _) => Err e
  end.

(** The loop of [split]: the two local objects after it, or the
    exception that ended it. *)
Fixpoint split_loop (section_names : list string)
    (root_input spiltted_input : FourCInput)
    : result (FourCInput * FourCInput) :=
  match section_names with
  | [] => Ok (root_input, spiltted_input)
  | section :: rest =>
      match pop section None root_input with
      | (Err e, _) => Err e
      | (Ok v, root_input') =>
          match setitem section v spiltted_input with
          | (Err e, _) => Err e
          | (Ok _, spiltted_input') => split_loop rest root_input' spiltted_input'
          end
      end
  end.

(** [self.split(section_names)] *)
Definition split (section_names : list string)
    : M (FourCInput * FourCInput) :=
  fun self => (split_loop section_names (copy self) new, self).

Definition as_dict (v : value) : result pydict :=
  match v with
  | VDict d => Ok d
  | _ => Err (TypeError ("expected a dict, found " ++ type_name v))
  end.

(** The two attributes are dictionaries throughout; a converter that
    gave back anything else for a dictionary would leave the document
    unusable, which is a [TypeError] here. *)
Definition convert_to_native_types : M unit :=
  fun self =>
    match as_dict (type_converter E (VDict (_sections self))) with
    | Err e => (Err e, self)
    | Ok s =>
        let self1 := {| _sections := s;
                        _legacy_sections := _legacy_sections self |} in
        match as_dict (type_converter E (VDict (_legacy_sections self))) with
        | Err e => (Err e, self1)
        | Ok l => (Ok (), {| _sections := s; _legacy_sections := l |})
        end
    end.

(** The property [inlined]. *)
Definition inlined (self : FourCInput) : result pydict :=
  rbind (inline_legacy_sections E (_legacy_sections self))
        (fun l => Ok (PyDict.union (_sections self) l)).

(** The first entry of an inlined section that is not a string. *)
Fixpoint check_strings (section_name : string) (i : nat) (l : list value)
    : result unit :=
  match l with
  | [] => Ok ()
  | k :: l' =>
      if negb (is_str k) then Err (ValidationError section_name i k)
      else check_strings section_name (S i) l'
  end.

Definition validate (json_schema : pydict) (sections_only : bool)
    (convert_to_native_types_flag : bool) : M bool :=
  validation_schema <-
    lift (if sections_only then
            match PyDict.get "required" json_schema with
            | Some _ => Ok (PyDict.remove "required" json_schema)
            | None => Err (KeyError "required")
            end
          else Ok json_schema) ;;
  (if convert_to_native_types_flag then convert_to_native_types else ret ()) ;;;
  self <- this ;;
  lift (validate_using_json_schema E (_sections self) validation_schema) ;;;
  inl <- lift (inline_legacy_sections E (_legacy_sections self)) ;;
  lift (map_result (fun kv => rbind (iter_values kv.2) (check_strings kv.1 0))
          inl) ;;;
  ret true.

(** [self.dump(...)]: the value is the call
    [dump_yaml(data, input_file_path, sort_sections)] that ends it, as
    the pair of [data] and [sort_sections]. *)
Definition dump (sort_sections validate_flag validate_sections_only
    convert_to_native_types_flag : bool) : M (pydict * bool) :=
  let validating := validate_flag || validate_sections_only in
  (if validating
   then validate (json_schema E) validate_sections_only
          convert_to_native_types_flag
   else ret true) ;;;
  let convert_to_native_types_flag :=
    if validating && convert_to_native_types_flag then false
    else convert_to_native_types_flag in
  (if convert_to_native_types_flag then convert_to_native_types else ret ()) ;;;
  self <- this ;;
  data <- lift (inlined self) ;;
  ret (data, sort_sections).

(** [self == other] *)
Definition input_eq (self other : FourCInput) : Prop :=
  PyDict.same (sections self) (sections other).

End Document.

(** ** A sample environment *)

(** Modelled from the spec: the catalog, the converter and the particle
    codec are not in the sources at hand.  The catalog is a handful of
    4C section names, with the [INCLUDES] section that
    [load_includes] and [dump_with_includes] rely on; the converter
    leaves native values as they are (spec 4.1); the particle codec
    follows the particle scenario of the spec (record identifier,
    [TYPE] tag, [POS] with three floats, then [KEY VALUE] pairs, tokens
    split on whitespace and joined by single spaces; numbers without a
    decimal point are ints).  It reads floats written [digits.digits]
    with a mantissa below 2^53 and at most 22 decimals, where one
    correctly rounded division gives the float Python reads, and it
    prints the floats that are whole numbers; anything else is a
    malformed record.  The other codecs are not modelled and raise.  This environment serves the examples; the theorems hold for
    every environment. *)
Module Sample.

Definition is_space (c : ascii) : bool :=
  bool_decide (c ∈ [" "%char; "009"%char; "010"%char; "013"%char]).

(** [line.split()] *)
Fixpoint split_ws (cur : string) (s : string) : list string :=
  match s with
  | EmptyString => if bool_decide (cur = "") then [] else [String.rev cur]
  | String c s' =>
      if is_space c
      then (if bool_decide (cur = "") then [] else [String.rev cur])
             ++ split_ws "" s'
      else split_ws (String c cur) s'
  end%list.

Definition digit_of (c : ascii) : option Z :=
  let n := Z.of_nat (nat_of_ascii c) in
  if ((48 <=? n) && (n <=? 57))%Z then Some (n - 48)%Z else None.

Fixpoint parse_digits (acc : Z) (s : string) : option Z :=
  match s with
  | EmptyString => Some acc
  | String c s' =>
      match digit_of c with
      | Some d => parse_digits (10 * acc + d) s'
      | None => None
      end
  end.

Definition parse_nat (s : string) : option Z :=
  match s with
  | EmptyString => None
  | _ => parse_digits 0 s
  end.

Definition split_sign (s : string) : bool * string :=
  match s with
  | String "-" s' => (true, s')
  | _ => (false, s)
  end.

Definition parse_int (s : string) : option Z :=
  let '(neg, body) := split_sign s in
  z ← parse_nat body; Some (if neg then (- z)%Z else z).

(** The text before and after the first [.], if there is one. *)
Fixpoint split_dot (acc : string) (s : string) : option (string * string) :=
  match s with
  | EmptyString => None
  | String "." s' => Some (String.rev acc, s')
  | String c s' => split_dot (String c acc) s'
  end.

Definition float_of_Z (neg : bool) (z : Z) : spec_float :=
  match z with
  | Zpos m => binary_normalize 53 1024 (if neg then Zneg m else Zpos m) 0 false
  | _ => S754_zero neg
  end.

Definition parse_float (s : string) : option spec_float :=
  let '(neg, body) := split_sign s in
  match split_dot "" body with
  | Some (ip, fp) =>
      i ← parse_nat ip;
      f ← parse_digits 0 fp;
      let k := Z.of_nat (String.length fp) in
      let m := (i * 10 ^ k + f)%Z in
      if ((m <? 2 ^ 53) && (k <=? 22))%Z
      then Some (SFdiv 53 1024 (float_of_Z neg m) (float_of_Z false (10 ^ k)))
      else None
  | None => None
  end.

Definition parse_number (s : string) : option value :=
  match split_dot "" s with
  | Some _ => VFloat <$> parse_float s
  | None => VInt <$> parse_int s
  end.

Definition malformed (line : string) : exn :=
  ExternalError ("MalformedRecordError: " ++ line).

Fixpoint read_pairs (line : string) (toks : list string) : result pydict :=
  match toks with
  | [] => Ok []
  | k :: v :: rest =>
      rbind (read_pairs line rest) (fun d =>
        Ok ((k, default (VStr v) (parse_number v)) :: d))
  | _ => Err (malformed line)
  end.

(** The fields of the record of a particle line. *)
Definition particle_fields (line : string) : result pydict :=
  match split_ws "" line with
  | id :: tag :: t :: pos :: x :: y :: z :: rest =>
      if bool_decide (tag = "TYPE") && bool_decide (pos = "POS") then
        match parse_int id, parse_float x, parse_float y, parse_float z with
        | Some i, Some fx, Some fy, Some fz =>
            rbind (read_pairs line rest) (fun d =>
              Ok (("ID", VInt i) :: ("TYPE", VStr t)
                  :: ("POS", VList [VFloat fx; VFloat fy; VFloat fz]) :: d))
        | _, _, _, _ => Err (malformed line)
        end
      else Err (malformed line)
  | _ => Err (malformed line)
  end.

Definition decode_particle (v : value) : result value :=
  match v with
  | VStr line => rbind (particle_fields line) (fun d => Ok (VDict d))
  | _ =>
      Err (AttributeError ("'" ++ type_short_name v
                             ++ "' object has no attribute 'split'"))
  end.

Definition print_Z (z : Z) : string :=
  DecimalString.NilZero.string_of_int (Z.to_int z).

(** The integer a float stands for, when it is one. *)
Definition integral (f : spec_float) : option (bool * Z) :=
  match f with
  | S754_zero s => Some (s, 0%Z)
  | S754_finite s m e =>
      match e with
      | Zneg p =>
          if (Zpos m mod 2 ^ Zpos p =? 0)%Z
          then Some (s, (Zpos m / 2 ^ Zpos p)%Z) else None
      | _ => Some (s, (Zpos m * 2 ^ e)%Z)
      end
  | _ => None
  end.

Definition print_float (f : spec_float) : option string :=
  match integral f with
  | Some (s, z) =>
      if (z <? 10 ^ 16)%Z
      then Some ((if s then "-" else "") ++ print_Z z ++ ".0") else None
  | None => None
  end.

Definition print_token (v : value) : option string :=
  match v with
  | VInt z => Some (print_Z z)
  | VFloat f => print_float f
  | VStr s => Some s
  | _ => None
  end.

Fixpoint write_pairs (d : pydict) : option (list string) :=
  match d with
  | [] => Some []
  | (k, v) :: d' =>
      t ← print_token v; r ← write_pairs d'; Some (k :: t :: r)
  end.

Definition encode_particle (v : value) : result value :=
  match v with
  | VDict (("ID", VInt i) :: ("TYPE", VStr t)
           :: ("POS", VList [VFloat fx; VFloat fy; VFloat fz]) :: d) =>
      match print_float fx, print_float fy, print_float fz, write_pairs d with
      | Some x, Some y, Some z, Some r =>
          Ok (VStr (str_join " "
                      (print_Z i :: "TYPE" :: t :: "POS" :: x :: y :: z :: r)))
      | _, _, _, _ => Err (ExternalError "MalformedRecordError")
      end
  | _ => Err (ExternalError "MalformedRecordError")
  end.

Definition not_modelled (v : value) : result value :=
  Err (ExternalError "codec not modelled").

Definition structured_names : list string :=
  ["TITLE"; "PROBLEM TYPE"; "IO"; "MATERIALS"; "MESH"; "INCLUDES"].

Definition legacy_names : list string :=
  ["PARTICLES"; "NODE COORDS"; "STRUCTURE ELEMENTS"; "DNODE-NODE TOPOLOGY";
   "FLUID DOMAIN"; "STRUCTURE KNOTVECTORS"].

Definition env : Env := {|
  SECTIONS := structured_names;
  LEGACY_SECTIONS := legacy_names;
  ALL_SECTIONS := (structured_names ++ legacy_names)%list;
  json_schema := [("required", VList [])];
  type_converter := fun v => v;
  read_particle := decode_particle;
  read_node := not_modelled;
  read_element := not_modelled;
  read_node_topology := not_modelled;
  read_domain := not_modelled;
  read_knotvectors := not_modelled;
  write_particle := encode_particle;
  write_node := not_modelled;
  write_element := not_modelled;
  write_node_topology := not_modelled;
  write_knotvectors := not_modelled;
  write_domain := not_modelled;
  jsonschema_rs_validate := fun _ _ => Ok ()
|}.

(** The raw particle section of the scenario. *)
Definition particle_lines : value :=
  VList [VStr "1 TYPE A POS 0.0 0.0 0.0"].

Definition particle_records : value :=
  VList [VDict [("ID", VInt 1); ("TYPE", VStr "A");
                ("POS", VList [VFloat (S754_zero false);
                               VFloat (S754_zero false);
                               VFloat (S754_zero false)])]].

(** A document from a legacy section and two structured ones, assigned
    in this order. *)
Definition io_section : value := VDict [("OUTPUT_BIN", VBool true)].

Definition title_section : value := VList [VStr "a particle at the origin"].

Definition doc_source : pydict :=
  [("PARTICLES", particle_lines); ("IO", io_section); ("TITLE", title_section)].

Definition doc : FourCInput := {|
  _sections := [("IO", io_section); ("TITLE", title_section)];
  _legacy_sections := [("PARTICLES", particle_records)]
|}.

(** Its two halves. *)
Definition doc_header : FourCInput := {|
  _sections := [("IO", io_section); ("TITLE", title_section)];
  _legacy_sections := []
|}.

Definition doc_particles : FourCInput := {|
  _sections := [];
  _legacy_sections := [("PARTICLES", particle_records)]
|}.

(** What [dump] hands to [dump_yaml] for [doc]. *)
Definition doc_export : pydict :=
  [("IO", io_section); ("TITLE", title_section); ("PARTICLES", particle_lines)].

End Sample.

(** ** Vocabulary of the properties *)

Section Vocabulary.
Context (E : Env).

(** What [self[key] = value] puts into the document, or the exception
    it raises: the computation of [setitem] up to the assignment. *)
Definition section_value (key : string) (v : value) : result value :=
  let value := type_converter E v in
  if is_section_known E key then Ok value
  else if bool_decide (key ∈ LEGACY_SECTIONS E) then
    match value with
    | VList l =>
        if negb (existsb is_dict l)
        then interpret_legacy_section E key value
        else Ok value
    | VDict _ => Ok value
    | _ => Err (TypeError ("Section " ++ key ++ " is not a list or dict."))
    end
  else Err (unknown_section E key).

(** The assignment that ends [setitem]. *)
Definition store (key : string) (w : value) (self : FourCInput) : FourCInput :=
  if is_section_known E key
  then {| _sections := PyDict.set key w (_sections self);
          _legacy_sections := _legacy_sections self |}
  else {| _sections := _sections self;
          _legacy_sections := PyDict.set key w (_legacy_sections self) |}.

(** The state a successful [pop] leaves. *)
Definition removed (key : string) (self : FourCInput) : FourCInput :=
  match PyDict.get key (_sections self) with
  | Some _ => {| _sections := PyDict.remove key (_sections self);
                 _legacy_sections := _legacy_sections self |}
  | None => {| _sections := _sections self;
               _legacy_sections := PyDict.remove key (_legacy_sections self) |}
  end.

(** The section [self.items()] and [==] see under a name. *)
Definition lookup (self : FourCInput) (key : string) : option value :=
  PyDict.get key (sections self).

(** The names set in a document. *)
Definition names (self : FourCInput) : list string :=
  (PyDict.keys (_legacy_sections self) ++ PyDict.keys (_sections self))%list.

(** A name is in both partitions. *)
Definition in_both (self : FourCInput) (n : string) : Prop :=
  n ∈ PyDict.keys (_sections self) /\ n ∈ PyDict.keys (_legacy_sections self).

(** A well-formed document: the keys of each dictionary are unique (as
    in any Python dictionary), the structured partition holds known
    names only and the legacy partition none of them. *)
Record wf (self : FourCInput) : Prop := {
  wf_sections : NoDup (PyDict.keys (_sections self));
  wf_legacy : NoDup (PyDict.keys (_legacy_sections self));
  wf_known :
    forall k, k ∈ PyDict.keys (_sections self) -> is_section_known E k = true;
  wf_not_known :
    forall k, k ∈ PyDict.keys (_legacy_sections self) ->
              is_section_known E k = false
}.

(** Every section of the document is stored again as it is when it is
    assigned again. *)
Definition stable (self : FourCInput) : Prop :=
  forall k v, lookup self k = Some v -> section_value k v = Ok v.

(** Modelled from the spec: what the spec says of the converter and of
    the codecs, neither of which is in the sources at hand.  The
    converter gives a stable representation (4.1): converting twice is
    converting once.  Interpretation is idempotent and safe on data that
    is interpreted already (4.3): the records an interpretation returns
    are stored as they are when they are assigned again. *)
Record codec_laws : Prop := {
  converter_idempotent :
    forall v, type_converter E (type_converter E v) = type_converter E v;
  interpreted_stable :
    forall key v r,
      is_section_known E key = false ->
      interpret_legacy_section E key v = Ok r ->
      section_value key r = Ok r
}.

(** Well-formedness together with stability. *)
Definition settled (self : FourCInput) : Prop := wf self /\ stable self.

(** The keys of the two partitions are the same in both documents. *)
Definition same_keys (d d' : FourCInput) : Prop :=
  PyDict.keys (_sections d') = PyDict.keys (_sections d)
  /\ PyDict.keys (_legacy_sections d') = PyDict.keys (_legacy_sections d).

(** The documents that the operations of the class build: from the
    empty document by assignment, [pop], [combine_sections],
    [overwrite_sections] (whether they return or raise) and [split]. *)
Inductive reachable : FourCInput -> Prop :=
| reachable_new : reachable new
| reachable_setitem self key v :
    reachable self -> reachable (setitem E key v self).2
| reachable_pop self key default_value :
    reachable self -> reachable (pop E key default_value self).2
| reachable_combine self other :
    reachable self -> reachable (combine_sections E other self).2
| reachable_overwrite self other :
    reachable self -> reachable (overwrite_sections E other self).2
| reachable_split_root self section_names root_input spiltted_input :
    reachable self ->
    (split E section_names self).1 = Ok (root_input, spiltted_input) ->
    reachable root_input
| reachable_split_extracted self section_names root_input spiltted_input :
    reachable self ->
    (split E section_names self).1 = Ok (root_input, spiltted_input) ->
    reachable spiltted_input.

(** The names of a run of assignments in the order of their first
    assignment. *)
Definition insert_name (acc : list string) (n : string) : list string :=
  if decide (n ∈ acc) then acc else (acc ++ [n])%list.

Definition insertion_order (l : list string) : list string :=
  foldl insert_name [] l.

(** The names of a run of assignments that go to the structured
    partition, and those that go to the legacy partition. *)
Definition structured_of (l : list string) : list string :=
  filter (fun n => is_section_known E n = true) l.

Definition legacy_of (l : list string) : list string :=
  filter (fun n => is_section_known E n = false) l.

(** The document after the assignments [kvs], in order, to an empty
    document (as [FourCInput(sections)] does them). *)
Definition built_from (kvs : pydict) (self : FourCInput) : Prop :=
  for_each kvs (fun kv => setitem E kv.1 kv.2) new = (Ok (), self).

End Vocabulary.

(** ** The rest of the dispatcher and of the class *)

(** [bool(v)] *)
Definition truthy (v : value) : bool :=
  match v with
  | VNone => false
  | VBool b => b
  | VInt z => negb (z =? 0)%Z
  | VFloat (S754_zero _) => false
  | VFloat _ => true
  | VStr s => negb (bool_decide (s = ""))
  | VList l => negb (bool_decide (l = []))
  | VDict d => negb (bool_decide (d = []))
  end.

Section LegacyInPlace.
Context (E : Env).

(** The loop of [interpret_legacy_sections]: it goes through the items
    of the dictionary and puts each interpreted section back under its
    name; [todo] is what is left to visit.  The dictionary is the
    caller's object, which keeps what was done when a section raises. *)
Fixpoint interpret_legacy_sections_loop (todo legacy_sections : pydict)
    : result unit * pydict :=
  match todo with
  | [] => (Ok (), legacy_sections)
  | (legacy_section, section) :: rest =>
      match interpret_legacy_section E legacy_section section with
      | Ok r =>
          interpret_legacy_sections_loop rest
            (PyDict.set legacy_section r legacy_sections)
      | Err e => (Err e, legacy_sections)
      end
  end.

(** [interpret_legacy_sections(legacy_sections)]: what it returns, and
    the dictionary it was given, afterwards. *)
Definition interpret_legacy_sections (legacy_sections : pydict)
    : result pydict * pydict :=
  match interpret_legacy_sections_loop legacy_sections legacy_sections with
  | (Ok _, d) => (Ok d, d)
  | (Err e, d) => (Err e, d)
  end.

(** An entry of the dictionary and its interpretation, under the same
    name. *)
Definition interpreted (kv kv' : string * value) : Prop :=
  kv'.1 = kv.1 /\ interpret_legacy_section E kv.1 kv.2 = Ok kv'.2.

End LegacyInPlace.

Section Files.
Context (E : Env).

(** [fourcipp.utils.yaml_io.load_yaml], which is not in the sources at
    hand: the data of the file at a path, or the exception of the
    load. *)
Context (load_yaml : value -> result value).

(** [self.extract_header()] *)
Definition extract_header (self : FourCInput) : result FourCInput :=
  init E (Some (_sections self)).

(** [data.pop(section, None)]: the data afterwards. *)
Definition data_pop (section : string) (data : value) : result value :=
  match data with
  | VDict d => Ok (VDict (PyDict.remove section d))
  | VList _ => Err (TypeError "pop expected at most 1 argument, got 2")
  | _ =>
      Err (AttributeError ("'" ++ type_short_name data
                             ++ "' object has no attribute 'pop'"))
  end.

(** [for section in sections: data.pop(section, None)] *)
Fixpoint pop_all (sections : list string) (data : value) : result value :=
  match sections with
  | [] => Ok data
  | section :: rest => rbind (data_pop section data) (pop_all rest)
  end.

(** [cls(data)]: [None] is no sections, a dictionary is its items, and
    nothing else has [items]. *)
Definition init_value (data : value) : result FourCInput :=
  match data with
  | VNone => init E None
  | VDict d => init E (Some d)
  | _ =>
      Err (AttributeError ("'" ++ type_short_name data
                             ++ "' object has no attribute 'items'"))
  end.

(** [FourCInput.from_4C_yaml(input_file_path, header_only)] *)
Definition from_4C_yaml (input_file_path : value) (header_only : bool)
    : result FourCInput :=
  rbind (load_yaml input_file_path) (fun data =>
  rbind (if header_only then pop_all (LEGACY_SECTIONS E) data else Ok data)
        init_value).

(** [self.load_includes()] *)
Definition load_includes : M unit :=
  includes <- pop E "INCLUDES" (Some VNone) ;;
  if truthy includes then
    partial_files <- lift (iter_values includes) ;;
    for_each partial_files (fun partial_file =>
      other <- lift (from_4C_yaml partial_file false) ;;
      combine_sections E (OtherInput other))
  else ret ().

(** [self[key].append(s)]: the list that [self[key]] returns is the one
    the document holds, and it grows in place. *)
Definition append_item (key : string) (s : string) : M unit :=
  fun self =>
    match getitem E self key with
    | Err e => (Err e, self)
    | Ok (VList l) =>
        let v := VList (l ++ [VStr s]) in
        if is_section_known E key
        then (Ok (), {| _sections := PyDict.set key v (_sections self);
                        _legacy_sections := _legacy_sections self |})
        else (Ok (), {| _sections := _sections self;
                        _legacy_sections :=
                          PyDict.set key v (_legacy_sections self) |})
    | Ok v =>
        (Err (AttributeError ("'" ++ type_short_name v
                                ++ "' object has no attribute 'append'")),
         self)
    end.

(** The document with the [INCLUDES] section of [dump_with_includes]:
    the section is added, empty, when it is not there, and the path of
    the other file is appended to it. *)
Definition add_include (split_input_file_path : string) : M unit :=
  (input_with_includes <- this ;;
   if contains input_with_includes "INCLUDES" then ret ()
   else setitem E "INCLUDES" (VList [])) ;;;
  append_item "INCLUDES" split_input_file_path.

(** [self.dump_with_includes(...)]: whether it returns, and the calls
    of [dump_yaml] it has made by then, each with its path, its data
    and its [sort_sections].  The receiver is not touched: the two
    documents are the copies that [split] returns. *)
Definition dump_with_includes (section_names : list string)
    (root_input_file_path split_input_file_path : string)
    (invert_sections sort_sections validate_flag : bool) (self : FourCInput)
    : result unit * list (string * (pydict * bool)) :=
  match (split E section_names self).1 with
  | Err e => (Err e, [])
  | Ok (first_input, second_input) =>
      let '(input_with_includes, split_input) :=
        if negb invert_sections then (first_input, second_input)
        else (second_input, first_input) in
      match add_include split_input_file_path input_with_includes with
      | (Err e, _) => (Err e, [])
      | (Ok _, input_with_includes) =>
          match dump E sort_sections validate_flag false true
                  input_with_includes with
          | (Err e, _) => (Err e, [])
          | (Ok root_call, _) =>
              match dump E sort_sections validate_flag false true
                      split_input with
              | (Err e, _) => (Err e, [(root_input_file_path, root_call)])
              | (Ok split_call, _) =>
                  (Ok (), [(root_input_file_path, root_call);
                           (split_input_file_path, split_call)])
              end
          end
      end
  end.

End Files.

(** ** Sample files *)

(** Modelled from the spec: [load_yaml] and the files it reads are not
    in the sources at hand.  A loader over three files stands for them
    in the examples: the sample document, its particle section alone,
    and an empty file, whose data is [None]; any other path is a file
    that is not there. *)
Module SampleFiles.

Definition load_yaml (input_file_path : value) : result value :=
  match input_file_path with
  | VStr s =>
      if bool_decide (s = "doc.4C.yaml") then Ok (VDict Sample.doc_source)
      else if bool_decide (s = "particles.4C.yaml")
      then Ok (VDict [("PARTICLES", Sample.particle_lines)])
      else if bool_decide (s = "empty.4C.yaml") then Ok VNone
      else Err (ExternalError ("FileNotFoundError: " ++ s))
  | _ =>
      Err (TypeError ("expected str, bytes or os.PathLike object, not "
                        ++ type_short_name input_file_path))
  end.

(** The header of the sample document with an [INCLUDES] section. *)
Definition with_includes (paths : list string) : FourCInput := {|
  _sections := [("INCLUDES", VList (VStr <$> paths));
                ("IO", Sample.io_section); ("TITLE", Sample.title_section)];
  _legacy_sections := []
|}.

(** What [dump_with_includes] hands to [dump_yaml] for the sample
    document and its particle section. *)
Definition doc_calls : list (string * (pydict * bool)) :=
  [("root.4C.yaml",
    ([("IO", Sample.io_section); ("TITLE", Sample.title_section);
      ("INCLUDES", VList [VStr "particles.4C.yaml"])], false));
   ("particles.4C.yaml", ([("PARTICLES", Sample.particle_lines)], false))].

End SampleFiles.

(** * Properties *)

(** ** Dictionaries *)

Section ListFilter.
Context {A : Type} (P Q : A -> Prop) `{!forall x, Decision (P x)}
  `{!forall x, Decision (Q x)}.

Lemma filter_all (l : list A) : Forall P l -> filter P l = l.
Proof.
  induction 1 as [|x l HP _ IH]; [done|].
  by rewrite filter_cons_True, IH.
Qed.

Lemma filter_ext_in (l : list A) :
  (forall x, x ∈ l -> P x <-> Q x) -> filter P l = filter Q l.
Proof.
  induction l as [|x l IH]; intros Hl; [done|].
  rewrite !filter_cons, IH by (intros; apply Hl; by right).
  destruct (Hl x) as [H1 H2]; [by left|].
  destruct (decide (P x)) as [HP|HP], (decide (Q x)) as [HQ|HQ]; try done.
  - destruct HQ. auto.
  - destruct HP. auto.
Qed.

End ListFilter.

Module PyDictFacts.
Import PyDict.

Lemma get_Some_elem k v (d : pydict) : get k d = Some v -> (k, v) ∈ d.
Proof.
  induction d as [|[k' v'] d IH]; csimpl; [done|].
  case_decide; intros ?; simplify_eq; [left | right; auto].
Qed.

Lemma elem_of_keys k (d : pydict) : k ∈ keys d <-> is_Some (get k d).
Proof.
  unfold keys. induction d as [|[k' v'] d IH]; csimpl.
  - split; [by intros ?%elem_of_nil | by intros [? ?]].
  - rewrite elem_of_cons, IH. case_decide; subst.
    + split; [by eauto | by left].
    + split; [by intros [?|?] | by right].
Qed.

Lemma not_elem_of_keys k (d : pydict) : k ∉ keys d <-> get k d = None.
Proof. rewrite elem_of_keys, eq_None_not_Some. done. Qed.

Lemma mem_true k (d : pydict) : mem k d = true <-> k ∈ keys d.
Proof.
  rewrite elem_of_keys. unfold mem.
  destruct (get k d); split; intros H; try done; try (by eauto).
Qed.

Lemma elem_get k v (d : pydict) :
  NoDup (keys d) -> (k, v) ∈ d -> get k d = Some v.
Proof.
  unfold keys. induction d as [|[k' v'] d IH]; csimpl.
  - by intros _ ?%elem_of_nil.
  - intros [Hk Hd]%NoDup_cons [?|Hin]%elem_of_cons; simplify_eq.
    + by rewrite decide_True.
    + rewrite decide_False; [auto|].
      intros ->. apply Hk. apply list_elem_of_fmap. by exists (k', v).
Qed.

Lemma get_set_eq k v (d : pydict) : get k (set k v d) = Some v.
Proof.
  induction d as [|[k' v'] d IH]; csimpl.
  - by rewrite decide_True.
  - case_decide; csimpl; subst.
    + by rewrite decide_True.
    + by rewrite decide_False.
Qed.

Lemma get_set_ne k k' v (d : pydict) :
  k ≠ k' -> get k' (set k v d) = get k' d.
Proof.
  intros Hne. induction d as [|[k0 v0] d IH]; csimpl.
  - by rewrite decide_False.
  - case_decide; csimpl; subst.
    + by rewrite !decide_False.
    + by rewrite IH.
Qed.

Lemma get_set k k' v (d : pydict) :
  get k' (set k v d) = if decide (k = k') then Some v else get k' d.
Proof.
  case_decide; subst; [apply get_set_eq | by apply get_set_ne].
Qed.

(** Assignment keeps the place of a key that is there and appends one
    that is not. *)
Lemma keys_set k v (d : pydict) :
  keys (set k v d) = if mem k d then keys d else (keys d ++ [k])%list.
Proof.
  unfold keys, mem. induction d as [|[k0 v0] d IH]; csimpl; [done|].
  case_decide; csimpl; subst; [done|].
  rewrite IH. by destruct (get k d).
Qed.

Lemma elem_of_keys_set k k' v (d : pydict) :
  k' ∈ keys (set k v d) <-> k' = k \/ k' ∈ keys d.
Proof.
  rewrite !elem_of_keys, get_set. case_decide; subst.
  - split; [by left | by eauto].
  - split; [by right | by intros [?|?]].
Qed.

Lemma NoDup_keys_set k v (d : pydict) :
  NoDup (keys d) -> NoDup (keys (set k v d)).
Proof.
  intros Hd. rewrite keys_set. destruct (mem k d) eqn:Hm; [done|].
  apply NoDup_app. split_and!; [done| |apply NoDup_singleton].
  intros x Hx ->%list_elem_of_singleton.
  apply mem_true in Hx. congruence.
Qed.

Lemma keys_remove_sub k k' (d : pydict) :
  k' ∈ keys (remove k d) -> k' ∈ keys d.
Proof.
  unfold keys. induction d as [|[k0 v0] d IH]; csimpl; [done|].
  case_decide; csimpl; [by right|].
  rewrite !elem_of_cons. intros [?|?]; [by left|right; auto].
Qed.

Lemma NoDup_keys_remove k (d : pydict) :
  NoDup (keys d) -> NoDup (keys (remove k d)).
Proof.
  unfold keys. induction d as [|[k0 v0] d IH]; csimpl; [done|].
  intros [Hk Hd]%NoDup_cons. case_decide; csimpl; [done|].
  apply NoDup_cons. split; [|auto].
  intros Hin. apply Hk. by apply (keys_remove_sub k).
Qed.

Lemma get_remove_ne k k' (d : pydict) :
  k ≠ k' -> get k' (remove k d) = get k' d.
Proof.
  intros Hne. induction d as [|[k0 v0] d IH]; csimpl; [done|].
  case_decide; csimpl; subst.
  - by rewrite decide_False.
  - by rewrite IH.
Qed.

Lemma get_remove_eq k (d : pydict) :
  NoDup (keys d) -> get k (remove k d) = None.
Proof.
  unfold keys. induction d as [|[k0 v0] d IH]; csimpl; [done|].
  intros [Hk Hd]%NoDup_cons. case_decide; csimpl; subst.
  - by apply not_elem_of_keys.
  - rewrite decide_False by done. auto.
Qed.

Lemma get_remove k k' (d : pydict) :
  NoDup (keys d) ->
  get k' (remove k d) = if decide (k = k') then None else get k' d.
Proof.
  intros. case_decide; subst; [by apply get_remove_eq | by apply get_remove_ne].
Qed.

(** The keys that stay keep their order. *)
Lemma keys_remove k (d : pydict) :
  NoDup (keys d) -> keys (remove k d) = filter (fun x => x ≠ k) (keys d).
Proof.
  unfold keys. induction d as [|[k0 v0] d IH]; csimpl; [done|].
  intros [Hk Hd]%NoDup_cons. case_decide; csimpl; subst.
  - rewrite filter_cons_False by naive_solver.
    symmetry. apply filter_all, Forall_forall. intros x Hx ->. done.
  - rewrite filter_cons_True by naive_solver. by rewrite IH.
Qed.

Lemma get_union k (d1 d2 : pydict) :
  NoDup (keys d2) ->
  get k (union d1 d2) = match get k d2 with Some v => Some v | None => get k d1 end.
Proof.
  unfold union, keys. revert d1.
  induction d2 as [|[k0 v0] d2 IH]; intros d1; csimpl; [done|].
  intros [Hk Hd]%NoDup_cons. rewrite IH by done. case_decide; subst.
  - assert (get k0 d2 = None) as -> by by apply not_elem_of_keys.
    apply get_set_eq.
  - destruct (get k d2); [done|]. by apply get_set_ne.
Qed.

Lemma NoDup_keys_union (d1 d2 : pydict) :
  NoDup (keys d1) -> NoDup (keys (union d1 d2)).
Proof.
  unfold union. revert d1.
  induction d2 as [|[k0 v0] d2 IH]; intros d1 ?; csimpl; [done|].
  by apply IH, NoDup_keys_set.
Qed.

(** The keys of [d1 | d2]: those of [d1], then the new ones of [d2]. *)
Lemma keys_union (d1 d2 : pydict) :
  NoDup (keys d2) ->
  keys (union d1 d2) = (keys d1 ++ filter (fun k => k ∉ keys d1) (keys d2))%list.
Proof.
  unfold union. revert d1.
  induction d2 as [|[k0 v0] d2 IH]; intros d1; csimpl.
  - by rewrite app_nil_r.
  - intros [Hk Hd]%NoDup_cons. rewrite IH by done. rewrite keys_set.
    destruct (mem k0 d1) eqn:Hm.
    + apply mem_true in Hm. by rewrite filter_cons_False by naive_solver.
    + assert (k0 ∉ keys d1) by (rewrite <-mem_true; congruence).
      rewrite filter_cons_True by done. rewrite <-app_assoc. csimpl.
      do 2 f_equal. apply filter_ext_in.
      intros x Hx. rewrite elem_of_app, list_elem_of_singleton.
      split; [naive_solver|]. intros Hn [?| ->]; [done|].
      apply Hk. by apply Hx.
Qed.

Lemma keys_union_disjoint (d1 d2 : pydict) :
  NoDup (keys d2) -> (forall k, k ∈ keys d1 -> k ∉ keys d2) ->
  keys (union d1 d2) = (keys d1 ++ keys d2)%list.
Proof.
  intros Hd Hdisj. rewrite keys_union by done. f_equal.
  apply filter_all, Forall_forall. naive_solver.
Qed.

End PyDictFacts.

(** ** Assignment, lookup and removal *)

Section DocumentFacts.
Context (E : Env).
Import PyDict PyDictFacts.

Implicit Types (self d e : FourCInput) (k n key : string) (v w : value).

Lemma setitem_spec key v self :
  setitem E key v self =
    match section_value E key v with
    | Ok w => (Ok (), store E key w self)
    | Err e => (Err e, self)
    end.
Proof.
  unfold setitem, section_value, store.
  destruct (is_section_known E key); [done|].
  case_bool_decide; [|done].
  destruct (type_converter E v) as [| | | | |l|]; try done.
  destruct (negb (existsb is_dict l)); [|done].
  by destruct (interpret_legacy_section E key (VList l)).
Qed.

Lemma setitem_state key v self :
  (setitem E key v self).2 = self
  \/ exists w, section_value E key v = Ok w
               /\ setitem E key v self = (Ok (), store E key w self).
Proof.
  rewrite setitem_spec. destruct (section_value E key v); [right; eauto | by left].
Qed.

Lemma store_wf key w self : wf E self -> wf E (store E key w self).
Proof.
  intros [HS HL HK HN]. unfold store.
  destruct (is_section_known E key) eqn:Hkey; split; simpl; try done.
  - by apply NoDup_keys_set.
  - intros k [->|?]%elem_of_keys_set; auto.
  - by apply NoDup_keys_set.
  - intros k [->|?]%elem_of_keys_set; auto.
Qed.

Lemma setitem_wf key v self : wf E self -> wf E (setitem E key v self).2.
Proof.
  intros Hwf. destruct (setitem_state key v self) as [->|(w & _ & ->)]; [done|].
  by apply store_wf.
Qed.

Lemma new_wf : wf E new.
Proof. split; simpl; try apply NoDup_nil_2; by intros k ?%elem_of_nil. Qed.

(** In a well-formed document no name is in both partitions. *)
Lemma wf_not_in_both self n : wf E self -> ~ in_both self n.
Proof.
  intros [_ _ HK HN] [H1 H2]. apply HK in H1. apply HN in H2. congruence.
Qed.

Lemma lookup_partitions self k :
  wf E self ->
  lookup self k =
    match get k (_sections self) with
    | Some v => Some v
    | None => get k (_legacy_sections self)
    end.
Proof.
  intros Hwf. unfold lookup, sections. rewrite get_union by apply Hwf.
  destruct (get k (_legacy_sections self)) as [v|] eqn:HL;
    destruct (get k (_sections self)) as [v'|] eqn:HS; try done.
  destruct (wf_not_in_both self k Hwf).
  split; apply elem_of_keys; eauto.
Qed.

Lemma lookup_known self k :
  wf E self -> is_section_known E k = true ->
  lookup self k = get k (_sections self).
Proof.
  intros Hwf Hk. rewrite lookup_partitions by done.
  destruct (get k (_sections self)); [done|].
  apply not_elem_of_keys. intros ?%(wf_not_known E self Hwf). congruence.
Qed.

Lemma lookup_not_known self k :
  wf E self -> is_section_known E k = false ->
  lookup self k = get k (_legacy_sections self).
Proof.
  intros Hwf Hk. rewrite lookup_partitions by done.
  destruct (get k (_sections self)) eqn:HS; [|done].
  assert (k ∈ keys (_sections self)) as ?%(wf_known E self Hwf)
    by (apply elem_of_keys; eauto).
  congruence.
Qed.

Lemma lookup_store key w self k :
  wf E self ->
  lookup (store E key w self) k =
    if decide (key = k) then Some w else lookup self k.
Proof.
  intros Hwf. pose proof (store_wf key w self Hwf) as Hwf'.
  destruct (is_section_known E k) eqn:Hk.
  - rewrite !lookup_known by done. unfold store.
    destruct (is_section_known E key) eqn:Hkey; simpl.
    + apply get_set.
    + case_decide; [congruence|done].
  - rewrite !lookup_not_known by done. unfold store.
    destruct (is_section_known E key) eqn:Hkey; simpl.
    + case_decide; [congruence|done].
    + apply get_set.
Qed.

Lemma elem_of_names self k :
  wf E self -> k ∈ names self <-> is_Some (lookup self k).
Proof.
  intros Hwf. unfold names. rewrite elem_of_app, !elem_of_keys.
  rewrite lookup_partitions by done.
  destruct (get k (_sections self)); [split; eauto|].
  split; [by intros [?|[? ?]] | by left].
Qed.

Lemma contains_true self k : contains self k = true <-> k ∈ names self.
Proof. unfold contains. apply bool_decide_eq_true. Qed.

Lemma contains_false self k : contains self k = false <-> k ∉ names self.
Proof. unfold contains. apply bool_decide_eq_false. Qed.

Lemma elem_of_get_section_names self k :
  k ∈ get_section_names self <-> k ∈ names self.
Proof.
  unfold get_section_names, sorted, names.
  by rewrite merge_sort_Permutation.
Qed.

(** [getitem] of a name that is set. *)
Lemma getitem_lookup self k v :
  wf E self -> lookup self k = Some v -> getitem E self k = Ok v.
Proof.
  intros Hwf Hl. unfold getitem. destruct (is_section_known E k) eqn:Hk.
  - rewrite lookup_known in Hl by done. by rewrite Hl.
  - rewrite lookup_not_known in Hl by done. by rewrite Hl.
Qed.

Lemma pop_set key default_value self v :
  wf E self -> lookup self key = Some v ->
  pop E key default_value self = (Ok v, removed key self).
Proof.
  intros Hwf. rewrite lookup_partitions by done. unfold pop, removed.
  destruct (get key (_sections self)); [by intros [= ->]|].
  by intros ->.
Qed.

Lemma pop_not_set key default_value self :
  wf E self -> lookup self key = None ->
  (pop E key default_value self).2 = self.
Proof.
  intros Hwf. rewrite lookup_partitions by done. unfold pop.
  destruct (get key (_sections self)); [done|]. intros ->.
  case_bool_decide; [|done]. destruct default_value; [done|].
  by destruct (closest _ _).
Qed.

Lemma removed_wf key self : wf E self -> wf E (removed key self).
Proof.
  intros [HS HL HK HN]. unfold removed.
  destruct (get key (_sections self)); split; simpl; try done.
  - by apply NoDup_keys_remove.
  - intros k ?%keys_remove_sub. auto.
  - by apply NoDup_keys_remove.
  - intros k ?%keys_remove_sub. auto.
Qed.

Lemma lookup_removed key self k :
  wf E self ->
  lookup (removed key self) k =
    if decide (key = k) then None else lookup self k.
Proof.
  intros Hwf. pose proof (removed_wf key self Hwf) as Hwf'.
  rewrite !lookup_partitions by done. unfold removed.
  destruct (get key (_sections self)) as [v|] eqn:HS; simpl.
  - rewrite get_remove by apply Hwf.
    destruct (decide (key = k)) as [<-|Hne]; [|done].
    apply not_elem_of_keys. intros ?%(wf_not_known E self Hwf).
    assert (key ∈ keys (_sections self)) as ?%(wf_known E self Hwf)
      by (apply elem_of_keys; eauto).
    congruence.
  - rewrite get_remove by apply Hwf.
    destruct (decide (key = k)) as [<-|Hne]; [by rewrite HS|done].
Qed.

Lemma pop_wf key default_value self :
  wf E self -> wf E (pop E key default_value self).2.
Proof.
  intros Hwf. destruct (lookup self key) as [v|] eqn:Hl.
  - rewrite (pop_set _ _ _ v) by done. by apply removed_wf.
  - by rewrite pop_not_set.
Qed.

End DocumentFacts.

(** ** Runs of assignments *)

Section Runs.
Context (E : Env).
Import PyDict PyDictFacts.

Implicit Types (self d e : FourCInput) (k n key : string) (v w : value).
Implicit Types (kvs : pydict).

Lemma for_each_cons {A} (x : A) l (body : A -> M unit) self :
  for_each (x :: l) body self =
    match body x self with
    | (Ok _, self') => for_each l body self'
    | (Err e, self') => (Err e, self')
    end.
Proof. done. Qed.

(** A property of documents that assignment keeps is kept by a run of
    assignments, whether the run ends or raises. *)
Lemma for_each_setitem_invariant (P : FourCInput -> Prop) kvs self :
  (forall key v d, P d -> P (setitem E key v d).2) ->
  P self -> P (for_each kvs (fun kv => setitem E kv.1 kv.2) self).2.
Proof.
  intros HP. revert self. induction kvs as [|[k v] kvs IH]; intros self Hs.
  - done.
  - rewrite for_each_cons. specialize (HP k v self Hs). simpl in *.
    destruct (setitem E k v self) as [[[]|e] self']; [by apply IH|done].
Qed.

Lemma overwrite_sections_invariant (P : FourCInput -> Prop) other self :
  (forall key v d, P d -> P (setitem E key v d).2) ->
  P self -> P (overwrite_sections E other self).2.
Proof.
  intros HP Hs. unfold overwrite_sections.
  destruct (other_items other); [by apply for_each_setitem_invariant|done].
Qed.

Lemma combine_sections_invariant (P : FourCInput -> Prop) other self :
  (forall key v d, P d -> P (setitem E key v d).2) ->
  P self -> P (combine_sections E other self).2.
Proof.
  intros HP Hs. unfold combine_sections.
  destruct (other_sections_names other); [|done].
  destruct (doubled_defined_sections self _); [|done].
  by apply overwrite_sections_invariant.
Qed.

Lemma split_loop_invariant (P : FourCInput -> Prop) section_names
    root ext root' ext' :
  (forall key v d, P d -> P (setitem E key v d).2) ->
  (forall key dv d, P d -> P (pop E key dv d).2) ->
  P root -> P ext ->
  split_loop E section_names root ext = Ok (root', ext') ->
  P root' /\ P ext'.
Proof.
  intros HS HP. revert root ext.
  induction section_names as [|n rest IH]; intros root ext Hr He; simpl.
  - by intros [= <- <-].
  - specialize (HP n None root Hr).
    destruct (pop E n None root) as [[v|?] root1]; [|done].
    specialize (HS n v ext He).
    destruct (setitem E n v ext) as [[[]|?] ext1]; [|done].
    by apply IH.
Qed.

(** Every document the operations build is well formed. *)
Lemma reachable_wf self : reachable E self -> wf E self.
Proof.
  assert (Hset : forall key v d, wf E d -> wf E (setitem E key v d).2)
    by (intros; by apply setitem_wf).
  assert (Hpop : forall key dv d, wf E d -> wf E (pop E key dv d).2)
    by (intros; by apply pop_wf).
  induction 1 as [|self key v _ IH|self key dv _ IH|self other _ IH
                  |self other _ IH|self ns r x _ IH Hsp|self ns r x _ IH Hsp].
  - apply new_wf.
  - by apply Hset.
  - by apply Hpop.
  - by apply combine_sections_invariant.
  - by apply overwrite_sections_invariant.
  - eapply (split_loop_invariant (wf E)) in Hsp as [? ?]; eauto using new_wf.
  - eapply (split_loop_invariant (wf E)) in Hsp as [? ?]; eauto using new_wf.
Qed.

(** A run of assignments that all succeed: the sections of [kvs] are
    added or replaced, the others are kept. *)
Lemma for_each_setitem_ok kvs self :
  wf E self -> NoDup (keys kvs) ->
  (forall k v, get k kvs = Some v -> is_ok (section_value E k v) = true) ->
  exists self',
    for_each kvs (fun kv => setitem E kv.1 kv.2) self = (Ok (), self')
    /\ wf E self'
    /\ forall k,
         match get k kvs with
         | Some v => exists w, section_value E k v = Ok w
                               /\ lookup self' k = Some w
         | None => lookup self' k = lookup self k
         end.
Proof.
  revert self. induction kvs as [|[k0 v0] kvs IH]; intros self Hwf Hnd Hok.
  - exists self. by split_and!.
  - apply NoDup_cons in Hnd as [Hk0 Hnd].
    rewrite for_each_cons, setitem_spec. simpl.
    pose proof (Hok k0 v0) as H0. simpl in H0. rewrite decide_True in H0 by done.
    destruct (section_value E k0 v0) as [w0|] eqn:Hw0; [|by specialize (H0 eq_refl)].
    destruct (IH (store E k0 w0 self)) as (self' & Hrun & Hwf' & Hl).
    { by apply store_wf. }
    { done. }
    { intros k v Hkv. apply Hok. simpl. rewrite decide_False; [done|].
      intros ->. apply Hk0. apply elem_of_keys. eauto. }
    exists self'. split_and!; [done..|].
    intros k. specialize (Hl k). simpl. destruct (decide (k = k0)) as [->|Hne].
    + assert (get k0 kvs = None) as Hn by by apply not_elem_of_keys.
      rewrite Hn in Hl. rewrite Hl, lookup_store, decide_True by done. eauto.
    + destruct (get k kvs); [done|].
      rewrite Hl, lookup_store by done. by rewrite decide_False.
Qed.

Lemma items_get e k : get k (items e) = lookup e k.
Proof. done. Qed.

Lemma items_NoDup e : wf E e -> NoDup (keys (items e)).
Proof. intros Hwf. apply NoDup_keys_union, Hwf. Qed.

(** No name of the receiver is among [names]: nothing is doubled. *)
Lemma doubled_defined_sections_nil self (ns : list string) :
  doubled_defined_sections self ns = [] <->
  forall n, n ∈ names self -> n ∉ ns.
Proof.
  unfold doubled_defined_sections. split.
  - intros Hnil n Hn Hin.
    assert (n ∈ filter (fun n => n ∈ ns) (remove_dups (get_section_names self))) as Hf.
    { apply list_elem_of_filter. split; [done|].
      by apply elem_of_remove_dups, elem_of_get_section_names. }
    rewrite Hnil in Hf. by apply elem_of_nil in Hf.
  - intros Hdis.
    destruct (filter _ _) as [|n l] eqn:Hf; [done|].
    assert (n ∈ filter (fun n => n ∈ ns) (remove_dups (get_section_names self)))
      as [Hin Hn%elem_of_remove_dups%elem_of_get_section_names]%list_elem_of_filter
      by (rewrite Hf; left).
    by destruct (Hdis n).
Qed.

(** [FourCInput(sections)] returns the document built by assigning
    the sections in order. *)
Lemma init_built_from kvs self :
  init E (Some kvs) = Ok self <-> built_from E kvs self.
Proof.
  unfold init, built_from.
  destruct (for_each kvs _ new) as [[[]|?] d]; split; intros; by simplify_eq.
Qed.

End Runs.

(** ** Item access *)

Section ItemAccess.
Context (E : Env).
Import PyDict PyDictFacts.

Implicit Types (self d e : FourCInput) (k n key : string) (v w : value).

Lemma contains_false_get self key :
  contains self key = false ->
  get key (_sections self) = None /\ get key (_legacy_sections self) = None.
Proof.
  intros Hc%contains_false. unfold names in Hc.
  rewrite not_elem_of_app in Hc. destruct Hc as [HL HS].
  by rewrite <-!not_elem_of_keys.
Qed.

(** C1, as amended: after [self[key] = v] has succeeded, [self[key]]
    returns the converted value [type_converter(v)] for a structured
    name and for a legacy name whose converted value is a dictionary or
    a list with a dictionary among its entries; for a legacy name with a
    list that holds no dictionary it returns the interpreted records
    [interpret_legacy_section(key, type_converter(v))]. *)
Theorem getitem_after_setitem key v self self' :
  setitem E key v self = (Ok (), self') ->
  exists w,
    getitem E self' key = Ok w
    /\ if is_section_known E key then w = type_converter E v
       else match type_converter E v with
            | VList l =>
                if existsb is_dict l then w = type_converter E v
                else interpret_legacy_section E key (type_converter E v) = Ok w
            | _ => w = type_converter E v
            end.
Proof.
  unfold setitem, getitem.
  destruct (is_section_known E key) eqn:Hk.
  - intros [= <-]. exists (type_converter E v). simpl.
    by rewrite get_set_eq.
  - case_bool_decide; [|done].
    destruct (type_converter E v) as [| | | | |l|d] eqn:Hv; try done.
    + destruct (existsb is_dict l); simpl.
      * intros [= <-]. exists (VList l). simpl. by rewrite get_set_eq.
      * destruct (interpret_legacy_section E key (VList l)) as [r|]; [|done].
        intros [= <-]. exists r. simpl. by rewrite get_set_eq.
    + intros [= <-]. exists (VDict d). simpl. by rewrite get_set_eq.
Qed.

(** C8: for a legacy name, [self[key] = v] stores the interpreted
    records when the (converted) value is a list none of whose entries
    is a dictionary, raising what the interpretation raises; it stores
    the value as it is when it is a list with a dictionary among its
    entries or a dictionary; any other value is a [TypeError].  The
    document is untouched when it raises. *)
Theorem setitem_legacy key v self :
  key ∈ LEGACY_SECTIONS E -> is_section_known E key = false ->
  let stored w :=
    (Ok (), {| _sections := _sections self;
               _legacy_sections := set key w (_legacy_sections self) |}) in
  match type_converter E v with
  | VList l =>
      if existsb is_dict l
      then setitem E key v self = stored (VList l)
      else match interpret_legacy_section E key (VList l) with
           | Ok r => setitem E key v self = stored r
           | Err e => setitem E key v self = (Err e, self)
           end
  | VDict d => setitem E key v self = stored (VDict d)
  | _ =>
      setitem E key v self =
        (Err (TypeError ("Section " ++ key ++ " is not a list or dict.")), self)
  end.
Proof.
  intros Hleg Hk. unfold setitem. rewrite Hk.
  rewrite bool_decide_eq_true_2 by done.
  destruct (type_converter E v) as [| | | | |l|d]; try done.
  destruct (existsb is_dict l); simpl; [done|].
  by destruct (interpret_legacy_section E key (VList l)).
Qed.

(** The "unknown section" branch of [__setitem__]: with a close match
    the exception is the intended one and names the match; without one
    the subscript [[0]] fails first. *)
Lemma setitem_unknown key v self :
  is_section_known E key = false -> key ∉ LEGACY_SECTIONS E ->
  setitem E key v self =
    match Difflib.get_close_matches (upper key) (ALL_SECTIONS E) with
    | m :: _ =>
        (Err (UnknownSectionException
                ("Unknown section '" ++ key ++ "'. Did you mean '" ++ m
                   ++ "'? Call FourCInputFile.known_sections for a complete list.")),
         self)
    | [] => (Err (IndexError "list index out of range"), self)
    end.
Proof.
  intros Hk Hleg. unfold setitem, raise, unknown_section, closest.
  rewrite Hk, bool_decide_eq_false_2 by done.
  by destruct (Difflib.get_close_matches _ _).
Qed.

Lemma omap_all_None {A B} (f : A -> option B) (l : list A) :
  (forall x, x ∈ l -> f x = None) -> omap f l = [].
Proof.
  induction l as [|x l IH]; intros Hl; [done|].
  csimpl. rewrite (Hl x) by left. apply IH. intros; apply Hl. by right.
Qed.

(** No name is close to the empty string. *)
Lemma get_close_matches_empty (possibilities : list string) :
  "" ∉ possibilities -> Difflib.get_close_matches "" possibilities = [].
Proof.
  intros Hne. unfold Difflib.get_close_matches.
  assert (Difflib.scored "" possibilities = []) as ->; [|done].
  unfold Difflib.scored. apply omap_all_None. intros x Hx.
  destruct x as [|c x]; [done|].
  assert (Difflib.ge_cutoff
            (Difflib.real_quick_ratio (list_ascii_of_string (String c x))
               (list_ascii_of_string ""))
          = false) as ->; [|done].
  unfold Difflib.ge_cutoff, Difflib.real_quick_ratio, Difflib.fraction.
  simpl length. by rewrite Nat.min_0_r.
Qed.

(** C7 does not hold of the code: for every catalog without an empty
    name, assigning to the empty name (known to neither catalog) raises
    [IndexError], not [UnknownSectionException]; no name of the catalog
    reaches the cutoff and the subscript [[0]] of the hint fails. *)
Lemma setitem_empty_name v self :
  "" ∉ SECTIONS E -> "" ∉ LEGACY_SECTIONS E -> "" ∉ ALL_SECTIONS E ->
  setitem E "" v self = (Err (IndexError "list index out of range"), self).
Proof.
  intros HS HL HA. rewrite setitem_unknown; [|..|done].
  - by rewrite get_close_matches_empty.
  - unfold is_section_known. by rewrite bool_decide_eq_false_2.
Qed.

(** C10: [self[key]] for a known name that is not set raises the
    [KeyError] of the dictionary, and the [UnknownSectionException]
    branch is reached only by names that are not known. *)
Theorem getitem_known_not_set key self :
  (is_section_known E key = true -> contains self key = false ->
   getitem E self key = Err (KeyError key))
  /\ (forall msg, getitem E self key = Err (UnknownSectionException msg) ->
      is_section_known E key = false
      /\ get key (_legacy_sections self) = None).
Proof.
  unfold getitem. split.
  - intros -> [-> _]%contains_false_get. done.
  - intros msg. destruct (is_section_known E key).
    + by destruct (get key (_sections self)).
    + by destruct (get key (_legacy_sections self)).
Qed.

(** C6, as amended: for a name that is not set, [pop] returns the
    default when one is given and the name is in [known_sections]; for a
    name outside [known_sections] it raises whether or not a default is
    given; without default it always raises; and when the close-match
    lookup yields a name, the exception is an [UnknownSectionException]
    whose message starts with "Section ... not set" for a known name and
    with "Unknown section" for an unknown one.  The document is
    unchanged in every case. *)
Theorem pop_not_set_cases key self :
  contains self key = false ->
  (key ∈ known_sections E ->
   forall dv, pop E key (Some dv) self = (Ok dv, self))
  /\ (key ∉ known_sections E ->
      forall default_value,
        pop E key default_value self = (Err (unknown_section E key), self))
  /\ (exists err : exn, pop E key None self = (Err err, self))
  /\ (forall m, key ∈ known_sections E ->
        closest key (get_section_names self) = Ok m ->
        pop E key None self =
          (Err (UnknownSectionException
                  ("Section '" ++ key ++ "' not set. Did out mean '" ++ m ++ "'?")),
           self))
  /\ (forall m, key ∉ known_sections E ->
        closest key (ALL_SECTIONS E) = Ok m ->
        pop E key None self =
          (Err (UnknownSectionException
                  ("Unknown section '" ++ key ++ "'. Did you mean '" ++ m
                     ++ "'? Call FourCInputFile.known_sections for a complete list.")),
           self)).
Proof.
  intros [HS HL]%contains_false_get. unfold pop. rewrite HS, HL.
  split_and!.
  - intros Hk dv. by rewrite bool_decide_eq_true_2.
  - intros Hk dv. by rewrite bool_decide_eq_false_2.
  - case_bool_decide; [|by eauto].
    destruct (closest key (get_section_names self)); eauto.
  - intros m Hk ->. by rewrite bool_decide_eq_true_2.
  - intros m Hk Hm. rewrite bool_decide_eq_false_2 by done.
    unfold unknown_section. by rewrite Hm.
Qed.

End ItemAccess.

(** ** Combining and splitting *)

Section CombineSplit.
Context (E : Env).
Import PyDict PyDictFacts.

Implicit Types (self d e root ext : FourCInput) (k n key : string) (v w : value).

(** C2: in every document that the operations build (assignment,
    [pop], [combine_sections], [overwrite_sections], [split], whether
    they return or raise), no section name is in both partitions. *)
Theorem partitions_disjoint self n : reachable E self -> ~ in_both self n.
Proof. intros Hwf%reachable_wf. by apply (wf_not_in_both E). Qed.

(** [combine_sections] with another document: a shared name is the
    [ValueError] of the collision and nothing else; without one it is
    [overwrite_sections], which, every assignment succeeding, returns
    with the sections of [e] added and those of the receiver kept. *)
Lemma combine_sections_cases d e :
  ((exists n, n ∈ names d /\ n ∈ names e) ->
   exists msg, combine_sections E (OtherInput e) d = (Err (ValueError msg), d))
  /\ ((forall n, n ∈ names d -> n ∉ names e) ->
      combine_sections E (OtherInput e) d = overwrite_sections E (OtherInput e) d)
  /\ ((forall n, n ∈ names d -> n ∉ names e) ->
      wf E d -> wf E e ->
      (forall n v, lookup e n = Some v -> is_ok (section_value E n v) = true) ->
      exists d',
        combine_sections E (OtherInput e) d = (Ok (), d')
        /\ wf E d'
        /\ forall n,
             match lookup e n with
             | Some v => exists w, section_value E n v = Ok w
                                   /\ lookup d' n = Some w
             | None => lookup d' n = lookup d n
             end).
Proof.
  assert (Hnil : (forall n, n ∈ names d -> n ∉ names e) ->
                 doubled_defined_sections d (get_section_names e) = []).
  { intros Hdis. apply doubled_defined_sections_nil. intros n Hn.
    rewrite elem_of_get_section_names. auto. }
  split_and!.
  - intros (n & Hd & He). unfold combine_sections. simpl.
    destruct (doubled_defined_sections d (get_section_names e)) as [|x l] eqn:Hdd;
      [|by eauto].
    destruct (proj1 (doubled_defined_sections_nil _ _) Hdd n Hd).
    by apply elem_of_get_section_names.
  - intros Hdis. unfold combine_sections. simpl. by rewrite Hnil.
  - intros Hdis Hd He Hok. unfold combine_sections. simpl. rewrite Hnil by done.
    unfold overwrite_sections. simpl.
    destruct (for_each_setitem_ok E (items e) d) as (d' & Hrun & Hwf' & Hl);
      [done|by apply (items_NoDup E)|done|].
    exists d'. split_and!; [done..|]. intros n. specialize (Hl n).
    by rewrite items_get in Hl.
Qed.

Lemma pop_None_ok key self v self' :
  wf E self -> pop E key None self = (Ok v, self') ->
  lookup self key = Some v /\ self' = removed key self.
Proof.
  intros Hwf Hpop. destruct (lookup self key) as [v0|] eqn:Hl.
  - rewrite (pop_set E key None self v0) in Hpop by done. by simplify_eq.
  - rewrite (lookup_partitions E) in Hl by done. unfold pop in Hpop.
    destruct (get key (_sections self)); [done|]. rewrite Hl in Hpop.
    case_bool_decide; [|done]. by destruct (closest _ _).
Qed.

(** What a [split] that returns has done to the copy of the receiver. *)
Lemma split_loop_root section_names root ext root' ext' :
  wf E root ->
  split_loop E section_names root ext = Ok (root', ext') ->
  wf E root'
  /\ (forall n, n ∈ section_names -> is_Some (lookup root n))
  /\ forall k, lookup root' k =
               if decide (k ∈ section_names) then None else lookup root k.
Proof.
  revert root ext. induction section_names as [|n rest IH]; intros root ext Hwf; simpl.
  - intros [= <- <-]. split_and!; [done|by intros n ?%elem_of_nil|done].
  - destruct (pop E n None root) as [[v|?] root1] eqn:Hpop; [|done].
    apply pop_None_ok in Hpop as [Hn ->]; [|done].
    destruct (setitem E n v ext) as [[[]|?] ext1]; [|done].
    intros (Hwf' & Hin & Hl)%IH; [|by apply (removed_wf E)].
    split_and!; [done| |].
    + intros m [->|Hm]%elem_of_cons; [by eauto|].
      specialize (Hin m Hm). rewrite (lookup_removed E) in Hin by done.
      case_decide; [by destruct Hin|done].
    + intros k. rewrite Hl, (lookup_removed E) by done.
      destruct (decide (k ∈ rest)) as [Hr|Hr].
      * rewrite decide_True; [done|by right].
      * destruct (decide (n = k)) as [->|Hne].
        -- rewrite decide_True; [done|by left].
        -- rewrite decide_False; [done|].
           intros [->|?]%elem_of_cons; done.
Qed.

(** C5, as amended: [split] leaves the receiver as it was, with the
    extracted names still in it; it is the remainder it returns that no
    longer has them. *)
Theorem split_keeps_source section_names self :
  (split E section_names self).2 = self
  /\ (wf E self ->
      forall root ext,
        (split E section_names self).1 = Ok (root, ext) ->
        forall n, n ∈ section_names -> n ∈ names self /\ n ∉ names root).
Proof.
  split; [done|]. intros Hwf root ext Hsp n Hn. simpl in Hsp.
  apply split_loop_root in Hsp as (Hwf' & Hin & Hl); [|done].
  rewrite !(elem_of_names E) by done. split; [by apply Hin|].
  rewrite Hl, decide_True by done. by intros [? ?].
Qed.

(** A [split] by distinct names that are set, each stored again as it
    is by an assignment, returns. *)
Lemma split_loop_ok section_names root ext :
  wf E root -> wf E ext -> NoDup section_names ->
  (forall n, n ∈ section_names ->
     exists v, lookup root n = Some v /\ section_value E n v = Ok v) ->
  exists root' ext',
    split_loop E section_names root ext = Ok (root', ext')
    /\ wf E root' /\ wf E ext'
    /\ (forall k, lookup root' k =
                  if decide (k ∈ section_names) then None else lookup root k)
    /\ (forall k, lookup ext' k =
                  if decide (k ∈ section_names) then lookup root k
                  else lookup ext k).
Proof.
  revert root ext.
  induction section_names as [|n rest IH]; intros root ext Hr He Hnd Hst; simpl.
  - exists root, ext. by split_and!.
  - apply NoDup_cons in Hnd as [Hn Hnd].
    destruct (Hst n) as (v & Hv & Hsv); [by left|].
    rewrite (pop_set E n None root v), setitem_spec, Hsv by done.
    destruct (IH (removed n root) (store E n v ext)) as
      (root' & ext' & Hrun & Hr' & He' & Hlr & Hle);
      [by apply (removed_wf E)|by apply (store_wf E)|done| |].
    { intros m Hm. destruct (Hst m) as (vm & Hvm & Hsm); [by right|].
      exists vm. split; [|done]. rewrite (lookup_removed E) by done.
      rewrite decide_False; [done|]. by intros ->. }
    exists root', ext'. split_and!; [done..| |].
    + intros k. rewrite Hlr, (lookup_removed E) by done.
      destruct (decide (k ∈ rest)) as [Hk|Hk].
      * rewrite decide_True; [done|by right].
      * destruct (decide (n = k)) as [->|Hne].
        -- rewrite decide_True; [done|by left].
        -- rewrite decide_False; [done|]. by intros [->|?]%elem_of_cons.
    + intros k. rewrite Hle, (lookup_removed E), (lookup_store E) by done.
      destruct (decide (k ∈ rest)) as [Hk|Hk].
      * destruct (decide (n = k)) as [->|Hne]; [done|].
        rewrite decide_True; [done|by right].
      * destruct (decide (n = k)) as [->|Hne].
        -- rewrite decide_True; [by rewrite Hv|by left].
        -- rewrite decide_False; [done|]. by intros [->|?]%elem_of_cons.
Qed.

(** Splitting a well-formed document by distinct names that are set
    and combining the remainder with the extracted document gives a
    document equal to the original one, when each extracted section is
    one that an assignment stores as it is. *)
Lemma split_combine_sections section_names d :
  wf E d -> NoDup section_names ->
  (forall n, n ∈ section_names -> n ∈ names d) ->
  (forall n v, n ∈ section_names -> lookup d n = Some v ->
               section_value E n v = Ok v) ->
  exists root ext d',
    split E section_names d = (Ok (root, ext), d)
    /\ combine_sections E (OtherInput ext) root = (Ok (), d')
    /\ input_eq d' d.
Proof.
  intros Hwf Hnd Hin Hst.
  destruct (split_loop_ok section_names d new) as
    (root & ext & Hrun & Hr & He & Hlr & Hle); [done|apply (new_wf E)|done| |].
  { intros n Hn.
    destruct (proj1 (elem_of_names E d n Hwf) (Hin n Hn)) as [v Hv]. eauto. }
  assert (Hnew : forall k, lookup new k = None) by done.
  destruct (combine_sections_cases root ext) as (_ & _ & Hcomb).
  destruct Hcomb as (d' & Hc & _ & Hl); [|done..| |].
  - intros n Hn. destruct (proj1 (elem_of_names E root n Hr) Hn) as [v Hv].
    rewrite (elem_of_names E) by done.
    rewrite Hlr in Hv. rewrite Hle. case_decide; [done|].
    rewrite Hnew. by intros [? ?].
  - intros n v. rewrite Hle. case_decide; [|by rewrite Hnew].
    intros Hv. by rewrite (Hst n v).
  - exists root, ext, d'. split_and!; [by unfold split, copy; rewrite Hrun|done|].
    intros k. change (lookup d' k = lookup d k). specialize (Hl k).
    rewrite Hle, Hlr in Hl. case_decide as Hk.
    + destruct (lookup d k) as [v|] eqn:Hv.
      * destruct Hl as (w & Hw & ->). rewrite (Hst k v) in Hw by done. congruence.
      * by rewrite Hl.
    + by rewrite Hnew in Hl.
Qed.

End CombineSplit.

(** ** Documents under the laws of the converter and the codecs *)

Section Laws.
Context (E : Env) (laws : codec_laws E).
Import PyDict PyDictFacts.

Implicit Types (self d e root ext : FourCInput) (k n key : string) (v w : value).

(** What an assignment stores is stored as it is by a second one. *)
Lemma section_value_stable key v w :
  section_value E key v = Ok w -> section_value E key w = Ok w.
Proof.
  destruct laws as [Hidem Hint]. unfold section_value at 1.
  destruct (is_section_known E key) eqn:Hk.
  - intros [= <-]. unfold section_value. by rewrite Hk, Hidem.
  - case_bool_decide as Hleg; [|done].
    destruct (type_converter E v) as [| | | | |l|m] eqn:Hv; try done.
    + destruct (existsb is_dict l) eqn:Hl; simpl.
      * intros [= <-]. unfold section_value.
        rewrite Hk, bool_decide_eq_true_2 by done.
        rewrite <-Hv, Hidem, Hv. by rewrite Hl.
      * by apply Hint.
    + intros [= <-]. unfold section_value.
      rewrite Hk, bool_decide_eq_true_2 by done.
      by rewrite <-Hv, Hidem, Hv.
Qed.

Lemma setitem_settled key v self :
  settled E self -> settled E (setitem E key v self).2.
Proof.
  intros [Hwf Hst].
  destruct (setitem_state E key v self) as [->|(w & Hw & ->)]; [done|].
  split; [by apply store_wf|]. simpl. intros k x.
  rewrite (lookup_store E) by done. case_decide; subst.
  - intros [= <-]. by apply (section_value_stable k v).
  - apply Hst.
Qed.

Lemma pop_settled key default_value self :
  settled E self -> settled E (pop E key default_value self).2.
Proof.
  intros [Hwf Hst]. split; [by apply pop_wf|].
  destruct (lookup self key) as [x|] eqn:Hl.
  - rewrite (pop_set E _ _ _ x) by done. simpl. intros k y.
    rewrite (lookup_removed E) by done. case_decide; [done|apply Hst].
  - by rewrite (pop_not_set E).
Qed.

Lemma new_settled : settled E new.
Proof. split; [apply new_wf|]. by intros k v. Qed.

(** Every section of a document that the operations build is stored
    as it is when it is assigned again. *)
Lemma reachable_settled self : reachable E self -> settled E self.
Proof.
  induction 1 as [|self key v _ IH|self key dv _ IH|self other _ IH
                  |self other _ IH|self ns r x _ IH Hsp|self ns r x _ IH Hsp].
  - apply new_settled.
  - by apply setitem_settled.
  - by apply pop_settled.
  - apply (combine_sections_invariant E (settled E));
      [apply setitem_settled|done].
  - apply (overwrite_sections_invariant E (settled E));
      [apply setitem_settled|done].
  - eapply (split_loop_invariant E (settled E)) in Hsp as [? ?];
      eauto using new_settled, setitem_settled, pop_settled.
  - eapply (split_loop_invariant E (settled E)) in Hsp as [? ?];
      eauto using new_settled, setitem_settled, pop_settled.
Qed.

(** Two documents without a common name combine: every assignment
    succeeds, and the receiver ends with its sections and those of
    [e]. *)
Lemma combine_sections_merges d e :
  reachable E d -> reachable E e ->
  (forall n, n ∈ names d -> n ∉ names e) ->
  exists d',
    combine_sections E (OtherInput e) d = (Ok (), d')
    /\ forall n, lookup d' n = match lookup e n with
                                | Some v => Some v
                                | None => lookup d n
                                end.
Proof.
  intros [Hd _]%reachable_settled [He Hst]%reachable_settled Hdis.
  destruct (combine_sections_cases E d e) as (_ & _ & Hmerge).
  destruct Hmerge as (d' & Hc & _ & Hl); [done..| |].
  - intros n v Hv. by rewrite (Hst n v).
  - exists d'. split; [done|]. intros n. specialize (Hl n).
    destruct (lookup e n) as [v|] eqn:Hv; [|done].
    destruct Hl as (w & Hw & ->). rewrite (Hst n v) in Hw by done. congruence.
Qed.

(** C4: splitting a document by a list of distinct names that are all
    set in it, and combining the remainder with the extracted document,
    gives a document equal to the original one. *)
Theorem split_combine_round_trip section_names d :
  reachable E d -> NoDup section_names ->
  (forall n, n ∈ section_names -> n ∈ names d) ->
  exists root ext d',
    split E section_names d = (Ok (root, ext), d)
    /\ combine_sections E (OtherInput ext) root = (Ok (), d')
    /\ input_eq d' d.
Proof.
  intros [Hwf Hst]%reachable_settled Hnd Hin.
  apply split_combine_sections; [done..|]. intros n v _. apply Hst.
Qed.

End Laws.

Section Combining.
Context (E : Env).

(** C3: when the two documents share a name, [combine_sections] raises
    the [ValueError] of the collision and leaves the receiver as it
    was, nothing of [e] merged; when they share none, it returns with
    every section of [e] in the receiver and the sections of the
    receiver kept (for documents that the operations build, under the
    laws of the converter and the codecs). *)
Theorem combine_sections_all_or_nothing (d e : FourCInput) :
  ((exists n, n ∈ names d /\ n ∈ names e) ->
   exists msg, combine_sections E (OtherInput e) d = (Err (ValueError msg), d))
  /\ (codec_laws E -> reachable E d -> reachable E e ->
      (forall n, n ∈ names d -> n ∉ names e) ->
      exists d',
        combine_sections E (OtherInput e) d = (Ok (), d')
        /\ forall n, lookup d' n = match lookup e n with
                                    | Some v => Some v
                                    | None => lookup d n
                                    end).
Proof.
  split.
  - apply combine_sections_cases.
  - intros laws. by apply combine_sections_merges.
Qed.

End Combining.

(** ** Export *)

Section Dump.
Context (E : Env).
Import PyDict PyDictFacts.

Implicit Types (self d : FourCInput) (k n key : string) (v w : value).
Implicit Types (kvs : pydict).

Lemma keys_set_insert_name key w (m : pydict) :
  keys (set key w m) = insert_name (keys m) key.
Proof.
  rewrite keys_set. unfold insert_name.
  destruct (mem key m) eqn:Hm.
  - apply mem_true in Hm. by rewrite decide_True.
  - rewrite decide_False; [done|]. rewrite <-mem_true. congruence.
Qed.

(** The keys of the two dictionaries after a run of assignments: each
    partition lists its names in the order of their first assignment. *)
Lemma for_each_setitem_keys kvs self self' :
  for_each kvs (fun kv => setitem E kv.1 kv.2) self = (Ok (), self') ->
  keys (_sections self')
    = foldl insert_name (keys (_sections self)) (structured_of E (keys kvs))
  /\ keys (_legacy_sections self')
    = foldl insert_name (keys (_legacy_sections self)) (legacy_of E (keys kvs)).
Proof.
  revert self. induction kvs as [|[k v] kvs IH]; intros self.
  - by intros [= <-].
  - rewrite for_each_cons, setitem_spec. simpl.
    destruct (section_value E k v) as [w|]; [|done].
    intros [HS HL]%IH. rewrite HS, HL. clear HS HL IH.
    unfold structured_of, legacy_of, keys at 3 6. csimpl. fold (keys kvs).
    unfold store. destruct (is_section_known E k) eqn:Hk; simpl.
    + rewrite filter_cons_True, filter_cons_False by congruence.
      simpl. by rewrite keys_set_insert_name.
    + rewrite filter_cons_False, filter_cons_True by congruence.
      simpl. by rewrite keys_set_insert_name.
Qed.

Lemma built_from_keys kvs self :
  built_from E kvs self ->
  keys (_sections self) = insertion_order (structured_of E (keys kvs))
  /\ keys (_legacy_sections self) = insertion_order (legacy_of E (keys kvs)).
Proof. apply for_each_setitem_keys. Qed.

Lemma built_from_wf kvs self : built_from E kvs self -> wf E self.
Proof.
  unfold built_from. intros Hrun.
  pose proof (for_each_setitem_invariant E (wf E) kvs new
                (fun key v d => setitem_wf E key v d) (new_wf E)) as Hwf.
  by rewrite Hrun in Hwf.
Qed.

Lemma inline_legacy_sections_keys (legacy_sections inl : pydict) :
  inline_legacy_sections E legacy_sections = Ok inl ->
  keys inl = keys legacy_sections.
Proof.
  unfold inline_legacy_sections, keys. revert inl.
  induction legacy_sections as [|[k v] l IH]; intros inl; simpl.
  - by intros [= <-].
  - destruct (inline_legacy_section E k v) as [r|]; [|done]. simpl.
    destruct (map_result _ l) as [rs|]; [|done]. simpl.
    intros [= <-]. csimpl. f_equal. by apply IH.
Qed.

(** The mapping [inlined] of a document whose keys are those of a
    well-formed one. *)
Lemma inlined_keys self self' (data : pydict) (sort_sections sort : bool) :
  wf E self -> same_keys self self' ->
  rbind (inlined E self') (fun data => Ok (data, sort_sections))
    = Ok (data, sort) ->
  sort = sort_sections
  /\ keys data = (keys (_sections self) ++ keys (_legacy_sections self))%list
  /\ exists inl,
       inline_legacy_sections E (_legacy_sections self') = Ok inl
       /\ data = union (_sections self') inl.
Proof.
  intros Hwf [HS HL]. unfold inlined.
  destruct (inline_legacy_sections E (_legacy_sections self')) as [inl|] eqn:Hi;
    [|done].
  simpl. intros [= <- <-]. split; [done|]. split; [|by eauto].
  rewrite keys_union_disjoint.
  - by rewrite (inline_legacy_sections_keys _ _ Hi), HS, HL.
  - rewrite (inline_legacy_sections_keys _ _ Hi), HL. apply Hwf.
  - intros k. rewrite (inline_legacy_sections_keys _ _ Hi), HS, HL.
    intros H1 H2. by apply (wf_not_in_both E self k Hwf).
Qed.

Section KeysKept.
(** The converter keeps the keys of a dictionary, and their order
    (spec 4.1). *)
Hypothesis converter_keys :
  forall m m' : pydict, type_converter E (VDict m) = VDict m' -> keys m' = keys m.

Lemma convert_to_native_types_keys self :
  same_keys self (convert_to_native_types E self).2.
Proof.
  unfold convert_to_native_types, same_keys.
  destruct (type_converter E (VDict (_sections self))) as [| | | | | |s] eqn:HS;
    simpl; try done.
  destruct (type_converter E (VDict (_legacy_sections self)))
    as [| | | | | |l] eqn:HL; simpl; eauto.
Qed.

Lemma validate_keys json_schema sections_only convert_flag self :
  same_keys self (validate E json_schema sections_only convert_flag self).2.
Proof.
  unfold validate, bind, lift, this, ret.
  destruct (if sections_only then _ else _) as [schema|]; [|done].
  destruct convert_flag.
  - pose proof (convert_to_native_types_keys self) as Hc.
    destruct (convert_to_native_types E self) as [[[]|?] self1]; [|done].
    by repeat case_match.
  - by repeat case_match.
Qed.

(** C9, as amended: for a document built by a run of assignments, the
    mapping that [dump] hands to [dump_yaml] (together with the flag
    [sort_sections], untouched) lists the structured sections first, in
    the order of their first assignment, and the legacy sections after
    them, in the order of theirs; it is the union of the structured
    partition and the inlined legacy partition. *)
Theorem dump_section_order kvs self sort_sections validate_flag
    validate_sections_only convert_flag data sort self' :
  built_from E kvs self ->
  dump E sort_sections validate_flag validate_sections_only convert_flag self
    = (Ok (data, sort), self') ->
  sort = sort_sections
  /\ keys data = (insertion_order (structured_of E (keys kvs))
                    ++ insertion_order (legacy_of E (keys kvs)))%list
  /\ exists inl,
       inline_legacy_sections E (_legacy_sections self') = Ok inl
       /\ data = union (_sections self') inl.
Proof.
  intros Hb Hdump.
  pose proof (built_from_wf kvs self Hb) as Hwf.
  apply built_from_keys in Hb as [HS HL]. rewrite <-HS, <-HL. clear HS HL.
  assert (same_keys self self'
          /\ rbind (inlined E self') (fun data => Ok (data, sort_sections))
             = Ok (data, sort)) as [Hk Hin].
  { unfold dump, bind, lift, this, ret in Hdump.
    destruct (validate_flag || validate_sections_only).
    - pose proof (validate_keys (json_schema E) validate_sections_only
                    convert_flag self) as Hv.
      destruct (validate E _ _ _ self) as [[b|?] self1]; [|done].
      assert ((if true && convert_flag then false else convert_flag) = false)
        as Hf by by destruct convert_flag.
      rewrite Hf in Hdump.
      destruct (inlined E self1) eqn:Hi; simplify_eq. by rewrite Hi.
    - simpl in Hdump. destruct convert_flag.
      + pose proof (convert_to_native_types_keys self) as Hc.
        destruct (convert_to_native_types E self) as [[[]|?] self1]; [|done].
        destruct (inlined E self1) eqn:Hi; simplify_eq. by rewrite Hi.
      + destruct (inlined E self) eqn:Hi; simplify_eq. by rewrite Hi. }
  by apply (inlined_keys self).
Qed.

End KeysKept.

End Dump.

(** ** The sample environment *)

Section SampleFacts.
Import PyDict PyDictFacts.

Lemma map_result_Forall2 {A B} (f : A -> result B) (l : list A) (rs : list B) :
  map_result f l = Ok rs -> Forall2 (fun x y => f x = Ok y) l rs.
Proof.
  revert rs. induction l as [|x l IH]; intros rs; simpl.
  - intros [= <-]. constructor.
  - destruct (f x) as [y|] eqn:Hx; [|done]. simpl.
    destruct (map_result f l) as [ys|]; [|done]. simpl.
    intros [= <-]. constructor; auto.
Qed.

Lemma iterate_and_evaluate_list f v r :
  _iterate_and_evaluate f v = Ok r ->
  exists l rs, iter_values v = Ok l /\ r = VList rs
               /\ Forall2 (fun x y => f x = Ok y) l rs.
Proof.
  unfold _iterate_and_evaluate.
  destruct (iter_values v) as [l|]; [|done]. simpl.
  destruct (map_result f l) as [rs|] eqn:Hm; [|done]. simpl.
  intros [= <-]. exists l, rs. split_and!; [done..|].
  by apply map_result_Forall2.
Qed.

(** The records of the sample codec are dictionaries: a list of them
    is empty or has a dictionary in it. *)
Lemma decode_particle_records v r :
  _iterate_and_evaluate Sample.decode_particle v = Ok r ->
  exists rs, r = VList rs /\ (rs = [] \/ existsb is_dict rs = true).
Proof.
  intros (l & rs & _ & -> & Hf)%iterate_and_evaluate_list.
  exists rs. split; [done|].
  destruct Hf as [|x y l rs Hx _]; [by left|right].
  unfold Sample.decode_particle in Hx.
  destruct x; try done.
  destruct (Sample.particle_fields s); [|done]. simpl in Hx. by simplify_eq.
Qed.

Lemma not_modelled_records v r :
  _iterate_and_evaluate Sample.not_modelled v = Ok r -> r = VList [].
Proof.
  intros (l & rs & _ & -> & Hf)%iterate_and_evaluate_list.
  by destruct Hf.
Qed.

Lemma iterate_and_evaluate_nil f : _iterate_and_evaluate f (VList []) = Ok (VList []).
Proof. done. Qed.

(** The sample environment keeps the laws of the converter and the
    codecs. *)
Lemma sample_laws : codec_laws Sample.env.
Proof.
  split; [done|]. intros key v r Hk.
  unfold section_value, interpret_legacy_section. rewrite Hk. simpl.
  destruct (bool_decide (key ∈ Sample.legacy_names)); simpl; [|done].
  destruct (bool_decide (key = "PARTICLES")).
  { intros (rs & -> & [->|Hd])%decode_particle_records; [done|by rewrite Hd]. }
  destruct (bool_decide (key = "NODE COORDS")).
  { by intros ->%not_modelled_records. }
  destruct (endswith key "ELEMENTS").
  { by intros ->%not_modelled_records. }
  destruct (endswith key "NODE TOPOLOGY").
  { by intros ->%not_modelled_records. }
  destruct (endswith key "DOMAIN"); [done|].
  destruct (endswith key "KNOTVECTORS"); done.
Qed.

Lemma built_from_reachable E kvs self :
  built_from E kvs self -> reachable E self.
Proof.
  unfold built_from. intros Hrun.
  pose proof (for_each_setitem_invariant E (reachable E) kvs new
                (fun key v d => reachable_setitem E d key v)
                (reachable_new E)) as Hr.
  by rewrite Hrun in Hr.
Qed.

Lemma sample_doc_built : built_from Sample.env Sample.doc_source Sample.doc.
Proof. vm_compute. reflexivity. Qed.

Lemma sample_doc_reachable : reachable Sample.env Sample.doc.
Proof. apply (built_from_reachable _ Sample.doc_source), sample_doc_built. Qed.

Lemma sample_doc_header_reachable : reachable Sample.env Sample.doc_header.
Proof.
  apply (built_from_reachable _ [("IO", Sample.io_section);
                                 ("TITLE", Sample.title_section)]).
  vm_compute. reflexivity.
Qed.

Lemma sample_doc_particles_reachable :
  reachable Sample.env Sample.doc_particles.
Proof.
  apply (built_from_reachable _ [("PARTICLES", Sample.particle_lines)]).
  vm_compute. reflexivity.
Qed.

End SampleFacts.

(** ** The claims on the sample documents *)

Section Examples.
Import PyDict PyDictFacts.

Lemma getitem_after_setitem_witness :
  exists w,
    getitem Sample.env Sample.doc_particles "PARTICLES" = Ok w
    /\ interpret_legacy_section Sample.env "PARTICLES" Sample.particle_lines
       = Ok w.
Proof.
  apply (getitem_after_setitem Sample.env "PARTICLES" Sample.particle_lines new).
  vm_compute. reflexivity.
Defined.

(** C1 fails on raw lines: the particle section is read back as
    records, not as the (converted) lines that were assigned. *)
Lemma getitem_after_setitem_counterexample :
  setitem Sample.env "PARTICLES" Sample.particle_lines new
    = (Ok (), Sample.doc_particles)
  /\ getitem Sample.env Sample.doc_particles "PARTICLES"
     = Ok Sample.particle_records
  /\ Sample.particle_records <> type_converter Sample.env Sample.particle_lines.
Proof. split_and!; [vm_compute; reflexivity..|discriminate]. Qed.

Lemma partitions_disjoint_witness : ~ in_both Sample.doc "PARTICLES".
Proof. apply (partitions_disjoint Sample.env), sample_doc_reachable. Defined.

Lemma sample_halves_disjoint :
  forall n, n ∈ names Sample.doc_header -> n ∉ names Sample.doc_particles.
Proof.
  apply Forall_forall. apply (bool_decide_unpack _). vm_compute. exact I.
Qed.

Lemma combine_sections_all_or_nothing_witness :
  (exists msg,
     combine_sections Sample.env (OtherInput Sample.doc_particles) Sample.doc
     = (Err (ValueError msg), Sample.doc))
  /\ exists d',
       combine_sections Sample.env (OtherInput Sample.doc_particles)
         Sample.doc_header = (Ok (), d')
       /\ forall n, lookup d' n = match lookup Sample.doc_particles n with
                                   | Some v => Some v
                                   | None => lookup Sample.doc_header n
                                   end.
Proof.
  split.
  - apply (combine_sections_all_or_nothing Sample.env
             Sample.doc Sample.doc_particles).
    exists "PARTICLES". split; apply (bool_decide_unpack _); vm_compute; exact I.
  - apply (combine_sections_all_or_nothing Sample.env
             Sample.doc_header Sample.doc_particles).
    + apply sample_laws.
    + apply sample_doc_header_reachable.
    + apply sample_doc_particles_reachable.
    + apply sample_halves_disjoint.
Defined.

Lemma split_combine_round_trip_witness :
  exists root ext d',
    split Sample.env ["PARTICLES"] Sample.doc = (Ok (root, ext), Sample.doc)
    /\ combine_sections Sample.env (OtherInput ext) root = (Ok (), d')
    /\ input_eq d' Sample.doc.
Proof.
  apply (split_combine_round_trip Sample.env sample_laws ["PARTICLES"] Sample.doc
           sample_doc_reachable).
  - apply (bool_decide_unpack _). vm_compute. exact I.
  - apply Forall_forall. apply (bool_decide_unpack _). vm_compute. exact I.
Defined.

Lemma split_keeps_source_witness :
  (split Sample.env ["PARTICLES"] Sample.doc).2 = Sample.doc
  /\ "PARTICLES" ∈ names Sample.doc
  /\ "PARTICLES" ∉ names Sample.doc_header.
Proof.
  destruct (split_keeps_source Sample.env ["PARTICLES"] Sample.doc) as [H1 H2].
  split; [exact H1|].
  apply (H2 (reachable_wf _ _ sample_doc_reachable)
            Sample.doc_header Sample.doc_particles).
  - vm_compute. reflexivity.
  - apply (bool_decide_unpack _). vm_compute. exact I.
Defined.

(** C5 fails: after the split the receiver still has the extracted
    section. *)
Lemma split_keeps_source_counterexample :
  split Sample.env ["PARTICLES"] Sample.doc
    = (Ok (Sample.doc_header, Sample.doc_particles), Sample.doc)
  /\ contains Sample.doc "PARTICLES" = true.
Proof. split; vm_compute; reflexivity. Qed.

Lemma pop_not_set_cases_witness :
  pop Sample.env "IO" (Some VNone) new = (Ok VNone, new).
Proof.
  apply (pop_not_set_cases Sample.env "IO" new).
  - vm_compute. reflexivity.
  - apply (bool_decide_unpack _). vm_compute. exact I.
Defined.

(** C6 fails: a default is given, the name is not set, and [pop]
    raises all the same, the name being unknown. *)
Lemma pop_not_set_cases_counterexample :
  contains new "PROBLEM TYP" = false
  /\ pop Sample.env "PROBLEM TYP" (Some VNone) new
     = (Err (UnknownSectionException
               "Unknown section 'PROBLEM TYP'. Did you mean 'PROBLEM TYPE'? Call FourCInputFile.known_sections for a complete list."),
        new).
Proof. split; vm_compute; reflexivity. Qed.

Lemma setitem_empty_name_witness :
  setitem Sample.env "" (VDict []) new
    = (Err (IndexError "list index out of range"), new).
Proof.
  apply (setitem_empty_name Sample.env);
    apply (bool_decide_unpack _); vm_compute; exact I.
Defined.

Lemma setitem_no_close_match_example :
  setitem Sample.env "@@@" (VDict []) new
    = (Err (IndexError "list index out of range"), new).
Proof. vm_compute. reflexivity. Qed.

Lemma setitem_legacy_witness :
  setitem Sample.env "PARTICLES" Sample.particle_lines new
    = (Ok (), {| _sections := [];
                 _legacy_sections := set "PARTICLES" Sample.particle_records [] |}).
Proof.
  apply (setitem_legacy Sample.env "PARTICLES" Sample.particle_lines new).
  - apply (bool_decide_unpack _). vm_compute. exact I.
  - vm_compute. reflexivity.
Defined.

Lemma sample_converter_keys (m m' : pydict) :
  type_converter Sample.env (VDict m) = VDict m' -> keys m' = keys m.
Proof. by intros [= ->]. Qed.

Lemma dump_section_order_witness :
  false = false
  /\ keys Sample.doc_export
     = (insertion_order (structured_of Sample.env (keys Sample.doc_source))
          ++ insertion_order (legacy_of Sample.env (keys Sample.doc_source)))%list
  /\ exists inl,
       inline_legacy_sections Sample.env (_legacy_sections Sample.doc) = Ok inl
       /\ Sample.doc_export = union (_sections Sample.doc) inl.
Proof.
  apply (dump_section_order Sample.env sample_converter_keys Sample.doc_source
           Sample.doc false false false true).
  - vm_compute. reflexivity.
  - vm_compute. reflexivity.
Defined.

(** C9 fails: the legacy section was assigned first and is exported
    last. *)
Lemma dump_section_order_counterexample :
  built_from Sample.env Sample.doc_source Sample.doc
  /\ dump Sample.env false false false true Sample.doc
     = (Ok (Sample.doc_export, false), Sample.doc)
  /\ keys Sample.doc_export = ["IO"; "TITLE"; "PARTICLES"]
  /\ insertion_order (keys Sample.doc_source) = ["PARTICLES"; "IO"; "TITLE"].
Proof. split_and!; vm_compute; reflexivity. Qed.

Lemma getitem_known_not_set_witness :
  getitem Sample.env Sample.doc_particles "IO" = Err (KeyError "IO").
Proof.
  apply (getitem_known_not_set Sample.env "IO" Sample.doc_particles);
    vm_compute; reflexivity.
Defined.

(** With a dictionary for [other], an assignment can raise in the
    middle of the merge: what was merged before stays merged. *)
Lemma combine_sections_dict_partial_example :
  combine_sections Sample.env
    (OtherValue (VDict [("IO", Sample.io_section); ("@@@", VDict [])])) new
  = (Err (IndexError "list index out of range"),
     {| _sections := [("IO", Sample.io_section)]; _legacy_sections := [] |}).
Proof. vm_compute. reflexivity. Qed.

(** The subscript [[0]] of the hints fails in [pop] and in [__getitem__]
    as it does in [__setitem__]. *)
Lemma pop_no_close_match_example :
  pop Sample.env "IO" None new
    = (Err (IndexError "list index out of range"), new).
Proof. vm_compute. reflexivity. Qed.

Lemma getitem_no_close_match_example :
  getitem Sample.env new "@@@" = Err (IndexError "list index out of range").
Proof. vm_compute. reflexivity. Qed.

End Examples.

(** * Further properties of the class *)

(** ** Access, assignment and removal *)

Section Access.
Context (E : Env).
Import PyDict PyDictFacts.

Implicit Types (self d e : FourCInput) (k n key : string) (v w : value).

Lemma set_set k w1 w2 (m : pydict) : set k w2 (set k w1 m) = set k w2 m.
Proof.
  induction m as [|[k0 v0] m IH]; simpl.
  - by rewrite decide_True.
  - case_decide; simpl.
    + by rewrite decide_True.
    + by rewrite decide_False, IH.
Qed.

Lemma set_fresh k w (m : pydict) : k ∉ keys m -> set k w m = (m ++ [(k, w)])%list.
Proof.
  unfold keys. induction m as [|[k0 v0] m IH]; csimpl; [done|].
  intros [Hne Hm]%not_elem_of_cons. by rewrite decide_False, IH.
Qed.

Lemma remove_set_fresh k w (m : pydict) : k ∉ keys m -> remove k (set k w m) = m.
Proof.
  unfold keys. induction m as [|[k0 v0] m IH]; csimpl.
  - by rewrite decide_True.
  - intros [Hne Hm]%not_elem_of_cons. rewrite decide_False by done. simpl.
    by rewrite decide_False, IH.
Qed.

Lemma store_store key w1 w2 self :
  store E key w2 (store E key w1 self) = store E key w2 self.
Proof.
  unfold store. destruct (is_section_known E key); simpl; by rewrite set_set.
Qed.

Lemma elem_of_names_store key w self k :
  k ∈ names (store E key w self) <-> k = key \/ k ∈ names self.
Proof.
  unfold names, store. destruct (is_section_known E key); simpl;
    rewrite !elem_of_app, elem_of_keys_set; tauto.
Qed.

(** [in] agrees with the subscript: in a document that the operations
    build, a name is contained exactly when [self[key]] returns. *)
Theorem contains_iff_getitem self key :
  reachable E self ->
  contains self key = true <-> exists v, getitem E self key = Ok v.
Proof.
  intros Hwf%reachable_wf. rewrite contains_true. split.
  - intros [v Hv]%(elem_of_names E); [|done].
    exists v. by apply getitem_lookup.
  - intros [v Hv]. unfold getitem in Hv. unfold names. rewrite elem_of_app.
    destruct (is_section_known E key).
    + right. apply elem_of_keys. destruct (get key (_sections self)); eauto.
      done.
    + left. apply elem_of_keys.
      destruct (get key (_legacy_sections self)); eauto.
      by destruct (closest _ _).
Qed.

(** An assignment that raises leaves the document as it was, and so
    does a [pop] that raises. *)
Theorem raise_keeps_document key v default_value self err :
  ((setitem E key v self).1 = Err err -> (setitem E key v self).2 = self)
  /\ ((pop E key default_value self).1 = Err err ->
      (pop E key default_value self).2 = self).
Proof.
  split.
  - rewrite setitem_spec. by destruct (section_value E key v).
  - unfold pop. destruct (get key (_sections self)); [done|].
    destruct (get key (_legacy_sections self)); [done|].
    case_bool_decide; [|done]. destruct default_value; [done|].
    by destruct (closest _ _).
Qed.

(** The last assignment wins: assigning a name twice leaves the
    document that the second assignment alone leaves, the name keeping
    its place among the sections. *)
Theorem setitem_twice key v1 v2 self self1 self2 :
  setitem E key v1 self = (Ok (), self1) ->
  setitem E key v2 self1 = (Ok (), self2) ->
  setitem E key v2 self = (Ok (), self2).
Proof.
  rewrite !setitem_spec.
  destruct (section_value E key v1) as [w1|]; [|done]. intros [= <-].
  destruct (section_value E key v2) as [w2|]; [|done]. intros [= <-].
  by rewrite store_store.
Qed.

(** [pop] undoes the assignment of a name that was not set: it returns
    what the assignment stored and leaves the document exactly as it
    was before the assignment. *)
Theorem pop_after_setitem key v default_value self self1 :
  contains self key = false ->
  setitem E key v self = (Ok (), self1) ->
  exists w,
    getitem E self1 key = Ok w
    /\ pop E key default_value self1 = (Ok w, self).
Proof.
  intros [HS HL]%contains_false_get. rewrite setitem_spec.
  destruct (section_value E key v) as [w|]; [|done]. intros [= <-].
  exists w. unfold store, getitem, pop. destruct self as [S L]. simpl in *.
  apply not_elem_of_keys in HS, HL.
  destruct (is_section_known E key); simpl.
  - rewrite get_set_eq. by rewrite remove_set_fresh.
  - rewrite get_set_eq.
    assert (get key S = None) as -> by by apply not_elem_of_keys.
    by rewrite remove_set_fresh.
Qed.

Lemma names_NoDup self : wf E self -> NoDup (names self).
Proof.
  intros Hwf. unfold names. apply NoDup_app. split_and!; [apply Hwf| |apply Hwf].
  intros k HL HS. by apply (wf_not_in_both E self k Hwf).
Qed.

(** [get_section_names] lists the names that are set, each once, in
    ascending order. *)
Theorem get_section_names_sorted self :
  reachable E self ->
  Sorted String.le (get_section_names self)
  /\ NoDup (get_section_names self)
  /\ forall n, n ∈ get_section_names self <-> contains self n = true.
Proof.
  intros Hwf%reachable_wf. split_and!.
  - apply Sorted_merge_sort. apply _.
  - unfold get_section_names, sorted. rewrite merge_sort_Permutation.
    by apply names_NoDup.
  - intros n. by rewrite elem_of_get_section_names, contains_true.
Qed.

(** [items()] (and the property [sections]) yields every section that
    is set once: the structured sections in their order, then the
    legacy sections in theirs, each with the value that the subscript
    returns. *)
Theorem items_order self :
  reachable E self ->
  keys (items self) = (keys (_sections self) ++ keys (_legacy_sections self))%list
  /\ NoDup (keys (items self))
  /\ forall k v, (k, v) ∈ items self <-> getitem E self k = Ok v.
Proof.
  intros Hwf%reachable_wf. split_and!.
  - unfold items, sections. apply keys_union_disjoint; [apply Hwf|].
    intros k HS HL. by apply (wf_not_in_both E self k Hwf).
  - by apply (items_NoDup E).
  - intros k v. split.
    + intros Hin. apply getitem_lookup; [done|].
      rewrite <-items_get. apply elem_get; [by apply (items_NoDup E)|done].
    + intros Hg. apply get_Some_elem. rewrite items_get.
      unfold getitem in Hg. destruct (is_section_known E k) eqn:Hk.
      * rewrite (lookup_known E) by done.
        destruct (get k (_sections self)); by simplify_eq.
      * rewrite (lookup_not_known E) by done.
        destruct (get k (_legacy_sections self)); [by simplify_eq|].
        by destruct (closest _ _).
Qed.

End Access.

(** ** Documents put together and taken apart *)

Section Composition.
Context (E : Env).
Import PyDict PyDictFacts.

Implicit Types (self d e root ext : FourCInput) (k n key : string) (v w : value).

(** [overwrite_sections] with a document never looks for common
    names: it returns, and the receiver then has every section of the
    other document, under the other document's value, and keeps its own
    sections under the other names. *)
Theorem overwrite_sections_last_wins d e :
  codec_laws E -> reachable E d -> reachable E e ->
  exists d',
    overwrite_sections E (OtherInput e) d = (Ok (), d')
    /\ forall n, lookup d' n = match lookup e n with
                                | Some v => Some v
                                | None => lookup d n
                                end.
Proof.
  intros laws [Hd _]%(reachable_settled E laws)
    [He Hst]%(reachable_settled E laws).
  unfold overwrite_sections. simpl.
  destruct (for_each_setitem_ok E (items e) d) as (d' & Hrun & _ & Hl);
    [done|by apply (items_NoDup E)| |].
  - intros n v. rewrite items_get. intros Hv. by rewrite (Hst n v).
  - exists d'. split; [done|]. intros n. specialize (Hl n).
    rewrite items_get in Hl. destruct (lookup e n) as [v|] eqn:Hv; [|done].
    destruct Hl as (w & Hw & ->). rewrite (Hst n v) in Hw by done. congruence.
Qed.

(** [+] does not depend on the order of its operands: for two
    documents without a common name, [d + e] and [e + d] both return,
    and the results are equal. *)
Theorem add_commutes d e :
  codec_laws E -> reachable E d -> reachable E e ->
  (forall n, n ∈ names d -> n ∉ names e) ->
  exists a b, add E d e = Ok a /\ add E e d = Ok b /\ input_eq a b.
Proof.
  intros laws Hd He Hdis.
  destruct (combine_sections_merges E laws d e) as (a & Ha & Hla); [done..|].
  destruct (combine_sections_merges E laws e d) as (b & Hb & Hlb); [done..| |].
  { intros n Hn Hn'. by apply (Hdis n). }
  exists a, b. unfold add, copy. rewrite Ha, Hb. split_and!; [done..|].
  intros k. change (lookup a k = lookup b k). rewrite Hla, Hlb.
  destruct (lookup e k) as [v|] eqn:Hv, (lookup d k) as [v'|] eqn:Hv'; try done.
  destruct (Hdis k).
  - apply (elem_of_names E); [by apply reachable_wf|]. by rewrite Hv'.
  - apply (elem_of_names E); [by apply reachable_wf|]. by rewrite Hv.
Qed.

(** The extracted document of a [split_loop] that returns. *)
Lemma split_loop_extracted section_names root ext root' ext' :
  split_loop E section_names root ext = Ok (root', ext') ->
  forall k, k ∈ names ext' <-> k ∈ section_names \/ k ∈ names ext.
Proof.
  revert root ext. induction section_names as [|n rest IH]; intros root ext; simpl.
  - intros [= <- <-] k. rewrite elem_of_nil. tauto.
  - destruct (pop E n None root) as [[v|?] root1]; [|done].
    rewrite setitem_spec.
    destruct (section_value E n v) as [w|]; [|done].
    intros Hrun k. rewrite (IH _ _ Hrun k), elem_of_names_store, elem_of_cons.
    tauto.
Qed.

Lemma split_loop_NoDup section_names root ext root' ext' :
  wf E root ->
  split_loop E section_names root ext = Ok (root', ext') ->
  NoDup section_names.
Proof.
  revert root ext. induction section_names as [|n rest IH]; intros root ext Hwf; simpl.
  - intros _. constructor.
  - destruct (pop E n None root) as [[v|?] root1] eqn:Hpop; [|done].
    apply pop_None_ok in Hpop as [Hn ->]; [|done].
    destruct (setitem E n v ext) as [[[]|?] ext1]; [|done].
    intros Hrun. apply NoDup_cons. split; [|by eapply IH, Hrun; apply removed_wf].
    intros Hin.
    apply split_loop_root in Hrun as (_ & Hset & _); [|by apply removed_wf].
    specialize (Hset n Hin). rewrite (lookup_removed E), decide_True in Hset by done.
    by destruct Hset.
Qed.

(** A [split] that returns was asked for distinct names that are all
    set; the document it extracts has exactly these names and the
    remainder exactly the other names of the receiver. *)
Theorem split_exact section_names self root ext :
  reachable E self ->
  (split E section_names self).1 = Ok (root, ext) ->
  NoDup section_names
  /\ (forall n, n ∈ section_names -> contains self n = true)
  /\ (forall k, contains ext k = true <-> k ∈ section_names)
  /\ (forall k, contains root k = true <->
                contains self k = true /\ k ∉ section_names).
Proof.
  intros Hwf%reachable_wf Hsp. simpl in Hsp. unfold copy in Hsp.
  pose proof (split_loop_NoDup _ _ _ _ _ Hwf Hsp) as Hnd.
  pose proof (split_loop_extracted _ _ _ _ _ Hsp) as Hext.
  apply split_loop_root in Hsp as (Hwf' & Hset & Hl); [|done].
  split_and!; [done| | |].
  - intros n Hn. apply contains_true, (elem_of_names E); auto.
  - intros k. rewrite contains_true, Hext. unfold names at 1. simpl.
    rewrite elem_of_nil. tauto.
  - intros k. rewrite !contains_true, !(elem_of_names E), Hl by done.
    case_decide; split; try tauto.
    by intros [? ?].
Qed.

(** A run of assignments of known names that are not yet set appends
    them, converted, to the structured partition. *)
Lemma for_each_setitem_known (kvs : pydict) self :
  NoDup (keys kvs) ->
  (forall k, k ∈ keys kvs -> is_section_known E k = true) ->
  (forall k, k ∈ keys kvs -> k ∉ keys (_sections self)) ->
  for_each kvs (fun kv => setitem E kv.1 kv.2) self
  = (Ok (), {| _sections :=
                 (_sections self
                    ++ (prod_map id (type_converter E) <$> kvs))%list;
               _legacy_sections := _legacy_sections self |}).
Proof.
  revert self.
  induction kvs as [|[k v] kvs IH]; intros [S L] Hnd Hk Hfresh.
  - simpl. by rewrite app_nil_r.
  - unfold keys in Hnd, Hk, Hfresh. rewrite fmap_cons in Hnd, Hk, Hfresh.
    cbn [fst _sections] in Hnd, Hk, Hfresh.
    apply NoDup_cons in Hnd as [Hn Hnd].
    assert (Hfk : k ∉ keys S) by (apply Hfresh; left).
    rewrite for_each_cons. unfold setitem at 1. cbn [fst snd].
    rewrite (Hk k) by left. unfold set_sections. cbn [_sections _legacy_sections].
    rewrite IH; cbn [_sections _legacy_sections].
    + rewrite set_fresh by done. rewrite fmap_cons, <-app_assoc. done.
    + done.
    + intros k' Hk'. apply Hk. by right.
    + intros k' Hk'. rewrite set_fresh by done.
      unfold keys. rewrite fmap_app, elem_of_app. cbn [fmap list_fmap fst].
      rewrite list_elem_of_singleton. intros [HS| ->]; [|done].
      revert HS. apply Hfresh. by right.
Qed.

(** [extract_header] of a document that the operations build returns
    a document without legacy sections that has the structured sections
    of the receiver in the same order, each converted once more; under
    the laws of the converter that is the structured partition
    itself. *)
Theorem extract_header_sections self :
  reachable E self ->
  extract_header E self
  = Ok {| _sections := prod_map id (type_converter E) <$> _sections self;
          _legacy_sections := [] |}
  /\ (codec_laws E ->
      extract_header E self
      = Ok {| _sections := _sections self; _legacy_sections := [] |}).
Proof.
  intros Hr. pose proof (reachable_wf E self Hr) as Hwf.
  assert (Hrun : extract_header E self
    = Ok {| _sections := prod_map id (type_converter E) <$> _sections self;
            _legacy_sections := [] |}).
  { unfold extract_header, init.
    rewrite for_each_setitem_known; [done|apply Hwf|apply Hwf|].
    intros k _. simpl. apply not_elem_of_nil. }
  split; [done|]. intros laws. rewrite Hrun. do 2 f_equal.
  destruct (reachable_settled E laws self Hr) as [_ Hst].
  assert (Hv : forall k v, (k, v) ∈ _sections self -> type_converter E v = v).
  { intros k v Hin.
    assert (is_section_known E k = true) as Hk.
    { apply (wf_known E self Hwf), list_elem_of_fmap. by exists (k, v). }
    specialize (Hst k v). rewrite (lookup_known E) in Hst by done.
    unfold section_value in Hst. rewrite Hk in Hst.
    assert (Ok (type_converter E v) = Ok v) as [= ->]; [|done].
    apply Hst, elem_get; [apply Hwf|done]. }
  revert Hv. generalize (_sections self). intros m Hm.
  induction m as [|[k v] m IH]; [done|]. csimpl. f_equal.
  - unfold prod_map. simpl. f_equal. apply (Hm k). by left.
  - apply IH. intros k' v' Hin. apply (Hm k'). by right.
Qed.

End Composition.

(** ** Validation and hints *)

Section Checks.
Context (E : Env).
Import PyDict PyDictFacts.

Implicit Types (self d : FourCInput) (k n key : string) (v w : value).

Lemma check_strings_Ok section_name i (l : list value) :
  check_strings section_name i l = Ok () -> Forall (fun x => is_str x = true) l.
Proof.
  revert i. induction l as [|x l IH]; intros i; simpl; [constructor|].
  destruct (is_str x) eqn:Hx; simpl; [|done].
  intros Hl. constructor; eauto.
Qed.

Lemma map_result_elem {A B} (f : A -> result B) (l : list A) rs x :
  map_result f l = Ok rs -> x ∈ l -> exists y, f x = Ok y.
Proof.
  intros Hf%map_result_Forall2 Hx.
  destruct (proj1 (list_elem_of_lookup l x) Hx) as [i Hi].
  destruct (Forall2_lookup_l _ _ _ _ _ Hf Hi) as (y & _ & Hy). eauto.
Qed.

(** A [validate] that returns has returned [True]: the schema engine
    has accepted the structured partition (against the schema without
    its ["required"] entry, which must be there, when [sections_only]
    is set), and every entry of every inlined legacy section is a
    string.  Without conversion the document is as it was. *)
Theorem validate_returns json_schema sections_only convert_flag self b self' :
  validate E json_schema sections_only convert_flag self = (Ok b, self') ->
  b = true
  /\ (convert_flag = false -> self' = self)
  /\ (exists used,
        (if sections_only
         then is_Some (get "required" json_schema)
              /\ used = remove "required" json_schema
         else used = json_schema)
        /\ jsonschema_rs_validate E used (_sections self') = Ok ())
  /\ exists inl,
       inline_legacy_sections E (_legacy_sections self') = Ok inl
       /\ forall k v, (k, v) ∈ inl ->
            exists l, iter_values v = Ok l
                      /\ Forall (fun x => is_str x = true) l.
Proof.
  unfold validate, bind, lift, this, ret, validate_using_json_schema.
  destruct (if sections_only then _ else _) as [used|] eqn:Hused; [|done].
  destruct ((if convert_flag then convert_to_native_types E
             else fun self => (Ok (), self)) self) as [[[]|?] self1] eqn:Hconv;
    [|done].
  destruct (jsonschema_rs_validate E used (_sections self1)) as [[]|] eqn:Hjs;
    [|done].
  simpl.
  destruct (inline_legacy_sections E (_legacy_sections self1)) as [inl|] eqn:Hinl;
    [|done].
  destruct (map_result _ inl) as [us|] eqn:Hchk; [|done].
  intros [= <- <-]. split_and!.
  - done.
  - intros ->. by simplify_eq.
  - exists used. split; [|done]. destruct sections_only; [|by simplify_eq].
    destruct (get "required" json_schema); by simplify_eq.
  - exists inl. split; [done|]. intros k v Hin.
    destruct (map_result_elem _ _ _ _ Hchk Hin) as [[] Hy]. simpl in Hy.
    destruct (iter_values v) as [l|]; [|done]. simpl in Hy.
    exists l. split; [done|]. by eapply check_strings_Ok.
Qed.

Lemma best_elem (l : list ((nat * nat) * string)) p :
  Difflib.best l = Some p -> p ∈ l.
Proof.
  unfold Difflib.best.
  assert (forall acc,
            foldl (fun acc p =>
                     match acc with
                     | None => Some p
                     | Some q => if Difflib.scored_lt q p then Some p else Some q
                     end) acc l = Some p ->
            acc = Some p \/ p ∈ l) as Hgen.
  { induction l as [|x l IH]; intros acc; simpl; [by left|].
    intros [Hacc|Hin]%IH; [|right; by right].
    destruct acc as [q|]; [|simplify_eq; right; left].
    destruct (Difflib.scored_lt q x); simplify_eq; [right; left|by left]. }
  intros [?|?]%Hgen; done.
Qed.

(** The name that the hints of the exceptions suggest is a name of the
    list it was looked for in, and its similarity to the upper-cased
    key reaches the cutoff. *)
Lemma closest_elem key (possibilities : list string) m :
  closest key possibilities = Ok m ->
  m ∈ possibilities
  /\ Difflib.ge_cutoff
       (Difflib.ratio (list_ascii_of_string m)
          (list_ascii_of_string (upper key))) = true.
Proof.
  unfold closest, Difflib.get_close_matches.
  destruct (Difflib.best _) as [p|] eqn:Hb; [|done].
  intros [= <-]. apply best_elem in Hb. unfold Difflib.scored in Hb.
  apply list_elem_of_omap in Hb as (x & Hx & Hp).
  destruct (Difflib.ge_cutoff (Difflib.real_quick_ratio _ _)); [|done].
  destruct (Difflib.ge_cutoff (Difflib.quick_ratio _ _)); [|done].
  destruct (Difflib.ge_cutoff (Difflib.ratio _ _)) eqn:Hr; [|done].
  simpl in Hp. by simplify_eq.
Qed.

(** The [UnknownSectionException] of an assignment to a name of
    neither catalog always suggests a name of [ALL_SECTIONS], one whose
    similarity to the upper-cased key is at least 0.3. *)
Theorem setitem_unknown_hint key v self msg :
  is_section_known E key = false -> key ∉ LEGACY_SECTIONS E ->
  (setitem E key v self).1 = Err (UnknownSectionException msg) ->
  exists m,
    m ∈ ALL_SECTIONS E
    /\ Difflib.ge_cutoff
         (Difflib.ratio (list_ascii_of_string m)
            (list_ascii_of_string (upper key))) = true
    /\ msg = "Unknown section '" ++ key ++ "'. Did you mean '" ++ m
               ++ "'? Call FourCInputFile.known_sections for a complete list.".
Proof.
  intros Hk Hleg. unfold setitem, raise, unknown_section.
  rewrite Hk, bool_decide_eq_false_2 by done. simpl.
  destruct (closest key (ALL_SECTIONS E)) as [m|e] eqn:Hm.
  - intros [= <-]. exists m. apply closest_elem in Hm as [? ?]. done.
  - unfold closest in Hm.
    destruct (Difflib.get_close_matches _ _); simplify_eq. by intros [=].
Qed.

End Checks.

(** ** The legacy dispatcher *)

Section LegacyFacts.
Context (E : Env).
Import PyDict PyDictFacts.
Local Open Scope list_scope.

Lemma set_middle k r v (d1 d2 : pydict) :
  k ∉ keys d1 -> set k r (d1 ++ (k, v) :: d2) = d1 ++ (k, r) :: d2.
Proof.
  induction d1 as [|[k' v'] d1 IH]; simpl.
  - intros _. by rewrite decide_True.
  - unfold keys. csimpl. fold (keys d1). intros Hk.
    apply not_elem_of_cons in Hk as [Hne Hk].
    rewrite decide_False by done. f_equal. by apply IH.
Qed.

Lemma interpret_legacy_sections_loop_spec (todo : pydict) :
  forall seen : pydict,
    NoDup (keys (seen ++ todo)) ->
    match interpret_legacy_sections_loop E todo (seen ++ todo) with
    | (Ok _, d') =>
        exists todo', d' = seen ++ todo' /\ Forall2 (interpreted E) todo todo'
    | (Err e, d') =>
        exists pre pre' k v rest,
          todo = pre ++ (k, v) :: rest
          /\ interpret_legacy_section E k v = Err e
          /\ d' = seen ++ pre' ++ (k, v) :: rest
          /\ Forall2 (interpreted E) pre pre'
    end.
Proof.
  induction todo as [|[k v] todo IH]; intros seen Hnd; simpl.
  - exists []. by split; [|constructor].
  - destruct (interpret_legacy_section E k v) as [r|e] eqn:Hr.
    + assert (k ∉ keys seen) as Hk.
      { unfold keys in *. rewrite fmap_app in Hnd.
        apply NoDup_app in Hnd as (_ & Hdis & _). intros Hin.
        apply (Hdis k Hin). csimpl. left. }
      rewrite set_middle by done.
      replace (seen ++ (k, r) :: todo) with ((seen ++ [(k, r)]) ++ todo)
        by by rewrite <-app_assoc.
      specialize (IH (seen ++ [(k, r)])).
      destruct (interpret_legacy_sections_loop E todo _) as [[[]|e] d'].
      * destruct IH as (todo' & -> & Hf).
        { revert Hnd. unfold keys. by rewrite !fmap_app, <-app_assoc. }
        exists ((k, r) :: todo'). split; [by rewrite <-app_assoc|].
        by constructor.
      * destruct IH as (pre & pre' & k' & v' & rest & -> & He & -> & Hf).
        { revert Hnd. unfold keys. by rewrite !fmap_app, <-app_assoc. }
        exists ((k, v) :: pre), ((k, r) :: pre'), k', v', rest.
        split_and!; [done|done|by rewrite <-app_assoc|by constructor].
    + exists [], [], k, v, todo. split_and!; [done..|constructor].
Qed.

(** [interpret_legacy_sections] works on the dictionary it is given.
    When it returns, it returns that dictionary, with the same names in
    the same order and every section interpreted.  When a section
    raises, the sections before it have been interpreted already, and
    that section and the ones after it are as they were. *)
Theorem interpret_legacy_sections_in_place (legacy_sections : pydict) :
  NoDup (keys legacy_sections) ->
  match interpret_legacy_sections E legacy_sections with
  | (Ok r, d') => r = d' /\ Forall2 (interpreted E) legacy_sections d'
  | (Err e, d') =>
      exists pre pre' k v rest,
        legacy_sections = pre ++ (k, v) :: rest
        /\ interpret_legacy_section E k v = Err e
        /\ d' = pre' ++ (k, v) :: rest
        /\ Forall2 (interpreted E) pre pre'
  end.
Proof.
  intros Hnd. unfold interpret_legacy_sections.
  pose proof (interpret_legacy_sections_loop_spec legacy_sections [] Hnd) as H.
  simpl in H.
  destruct (interpret_legacy_sections_loop E _ _) as [[[]|e] d'].
  - destruct H as (todo' & -> & Hf). done.
  - done.
Qed.



End LegacyFacts.

(** ** Files and includes *)

Section FileFacts.
Context (E : Env) (load_yaml : value -> result value).
Import PyDict PyDictFacts.
Local Open Scope list_scope.

Implicit Types (self d : FourCInput) (k n key : string) (v w : value).
Implicit Types (kvs : pydict).

Lemma remove_filter k kvs :
  NoDup (keys kvs) -> remove k kvs = filter (fun kv => kv.1 ≠ k) kvs.
Proof.
  unfold keys. induction kvs as [|[k0 v0] kvs IH]; csimpl; [done|].
  intros [Hk Hd]%NoDup_cons. case_decide; subst.
  - rewrite filter_cons_False by (simpl; auto).
    symmetry. apply filter_all, Forall_forall. intros [k v] Hx. simpl.
    intros ->. apply Hk. apply list_elem_of_fmap. by exists (k0, v).
  - rewrite filter_cons_True by (simpl; auto). by rewrite IH.
Qed.

Lemma keys_filter_NoDup (P : string * value -> Prop)
    `{!forall x, Decision (P x)} kvs :
  NoDup (keys kvs) -> NoDup (keys (filter P kvs)).
Proof.
  unfold keys. induction kvs as [|[k0 v0] kvs IH]; csimpl; [done|].
  intros [Hk Hd]%NoDup_cons. rewrite filter_cons. case_decide; csimpl; [|auto].
  apply NoDup_cons. split; [|auto]. intros Hin. apply Hk.
  apply list_elem_of_fmap in Hin as (x & -> & Hx%list_elem_of_filter).
  apply list_elem_of_fmap. exists x. by destruct Hx.
Qed.

(** Popping a list of names off a dictionary leaves the entries under
    the other names, in their order. *)
Lemma pop_all_dict (sections : list string) kvs :
  NoDup (keys kvs) ->
  pop_all sections (VDict kvs)
    = Ok (VDict (filter (fun kv => kv.1 ∉ sections) kvs)).
Proof.
  revert kvs. induction sections as [|n rest IH]; intros kvs Hnd; simpl.
  - do 2 f_equal. symmetry. apply filter_all, Forall_forall.
    intros x _. apply not_elem_of_nil.
  - rewrite remove_filter by done.
    rewrite IH by by apply keys_filter_NoDup.
    do 2 f_equal. rewrite list_filter_filter. apply filter_ext_in.
    intros [k v] _. simpl. rewrite not_elem_of_cons. tauto.
Qed.

Lemma for_each_setitem_header kvs (S L L0 : pydict) full :
  (forall n, n ∈ LEGACY_SECTIONS E -> is_section_known E n = false) ->
  for_each kvs (fun kv => setitem E kv.1 kv.2)
    {| _sections := S; _legacy_sections := L |} = (Ok (), full) ->
  for_each (filter (fun kv => kv.1 ∉ LEGACY_SECTIONS E) kvs)
    (fun kv => setitem E kv.1 kv.2)
    {| _sections := S; _legacy_sections := L0 |}
  = (Ok (), {| _sections := _sections full; _legacy_sections := L0 |}).
Proof.
  intros Hleg. revert S L. induction kvs as [|[k v] kvs IH]; intros S L.
  - by intros [= <-].
  - rewrite for_each_cons, setitem_spec. cbn [fst snd].
    destruct (section_value E k v) as [w|] eqn:Hsv; [|done].
    unfold store. cbn [_sections _legacy_sections].
    destruct (is_section_known E k) eqn:Hk.
    + intros Hrun. rewrite filter_cons_True.
      2:{ simpl. intros Hin%Hleg. congruence. }
      rewrite for_each_cons, setitem_spec. cbn [fst snd]. rewrite Hsv.
      unfold store. rewrite Hk. cbn [_sections _legacy_sections].
      by eapply IH.
    + intros Hrun. rewrite filter_cons_False.
      2:{ simpl. intros Hnot. apply Hnot. unfold section_value in Hsv.
          rewrite Hk in Hsv. by case_bool_decide. }
      by eapply IH.
Qed.

(** A header-only load gives the structured sections of the full load
    and no legacy section: when the file holds a mapping and loads in
    full, it loads header-only, to the document that the full load
    gives without its legacy partition. *)
Theorem from_4C_yaml_header_only input_file_path kvs full :
  (forall n, n ∈ LEGACY_SECTIONS E -> is_section_known E n = false) ->
  load_yaml input_file_path = Ok (VDict kvs) -> NoDup (keys kvs) ->
  from_4C_yaml E load_yaml input_file_path false = Ok full ->
  from_4C_yaml E load_yaml input_file_path true
    = Ok {| _sections := _sections full; _legacy_sections := [] |}.
Proof.
  intros Hleg Hload Hnd. unfold from_4C_yaml. rewrite Hload. simpl.
  rewrite pop_all_dict by done. simpl. unfold init.
  destruct (for_each kvs _ new) as [[[]|?] d] eqn:Hrun; [|done].
  intros [= <-]. unfold new in *.
  by rewrite (for_each_setitem_header kvs [] [] [] d Hleg Hrun).
Qed.

(** An empty file, whose data is [None], loads in full to the empty
    document, but not header-only: [None] has no [pop], which the loop
    over the legacy names calls. *)
Theorem from_4C_yaml_empty_file input_file_path :
  load_yaml input_file_path = Ok VNone -> LEGACY_SECTIONS E ≠ [] ->
  from_4C_yaml E load_yaml input_file_path false = Ok new
  /\ from_4C_yaml E load_yaml input_file_path true
     = Err (AttributeError "'NoneType' object has no attribute 'pop'").
Proof.
  intros Hload Hne. unfold from_4C_yaml. rewrite Hload. simpl.
  split; [done|]. by destruct (LEGACY_SECTIONS E).
Qed.

Lemma from_4C_yaml_reachable input_file_path header_only d :
  from_4C_yaml E load_yaml input_file_path header_only = Ok d -> reachable E d.
Proof.
  unfold from_4C_yaml.
  destruct (load_yaml input_file_path) as [data|]; [|done]. simpl.
  destruct (if header_only then _ else _) as [data'|]; [|done]. simpl.
  destruct data'; simpl; try done.
  - intros [= <-]. constructor.
  - intros Hi. apply init_built_from in Hi. by eapply built_from_reachable.
Qed.

(** The loop of [load_includes], from a document that shares no name
    with the files and whose files share none with each other. *)
Lemma load_includes_loop (paths : list value) (others : list FourCInput) d :
  codec_laws E -> reachable E d ->
  Forall2 (fun p o => from_4C_yaml E load_yaml p false = Ok o) paths others ->
  NoDup (names d ++ mjoin (names <$> others)) ->
  exists d',
    for_each paths
      (fun partial_file =>
         bind (lift (from_4C_yaml E load_yaml partial_file false))
              (fun other => combine_sections E (OtherInput other))) d
    = (Ok (), d')
    /\ forall n v, lookup d' n = Some v <->
         lookup d n = Some v \/ exists o, o ∈ others /\ lookup o n = Some v.
Proof.
  intros laws Hd Hf. revert d Hd.
  induction Hf as [|p o paths others Hp _ IH]; intros d Hd Hnd.
  - exists d. split; [done|]. intros n v. split; [by left|].
    by intros [?|(o & ?%elem_of_nil & _)].
  - pose proof (from_4C_yaml_reachable _ _ _ Hp) as Ho.
    pose proof (reachable_wf E d Hd) as Hwd.
    pose proof (reachable_wf E o Ho) as Hwo.
    rewrite fmap_cons in Hnd. simpl in Hnd.
    apply NoDup_app in Hnd as (_ & Hdis & Hnd').
    assert (forall n, n ∈ names d -> n ∉ names o) as Hdo.
    { intros n Hn Hn'. apply (Hdis n Hn). apply elem_of_app. by left. }
    destruct (combine_sections_merges E laws d o Hd Ho Hdo) as (d1 & Hc & Hl).
    assert (reachable E d1) as Hd1.
    { replace d1 with (combine_sections E (OtherInput o) d).2 by by rewrite Hc.
      by constructor. }
    assert (forall n v, lookup d1 n = Some v <->
              lookup d n = Some v \/ lookup o n = Some v) as Hl1.
    { intros n v. rewrite Hl. destruct (lookup o n) as [v'|] eqn:Hv'.
      - split; [by right|]. intros [Hv|?]; [|done].
        destruct (Hdo n); apply (elem_of_names E); try done; by eauto.
      - split; [by left|]. by intros [?|?]. }
    destruct (IH d1 Hd1) as (d' & Hrun & Hl').
    { apply NoDup_app. split_and!.
      - by apply (names_NoDup E), reachable_wf.
      - intros n [v Hn]%(elem_of_names E); [|by apply reachable_wf].
        apply Hl1 in Hn as [Hn|Hn].
        + intros Hin. apply (Hdis n).
          * apply (elem_of_names E); [done|by eauto].
          * apply elem_of_app. by right.
        + apply NoDup_app in Hnd' as (_ & Hdis' & _). apply Hdis'.
          apply (elem_of_names E); [done|by eauto].
      - by apply NoDup_app in Hnd' as (_ & _ & ?). }
    exists d'. rewrite for_each_cons. unfold bind at 1, lift at 1.
    rewrite Hp, Hc. split; [done|]. intros n v. rewrite Hl', Hl1.
    split.
    + intros [[?|?]|(o' & Hin & ?)]; [by left|right; exists o|right; exists o'];
        split; try done; [left|by right].
    + intros [?|(o' & [->|Hin]%elem_of_cons & ?)];
        [by left; left|by left; right|right; by exists o'].
Qed.

(** [load_includes] takes the [INCLUDES] section out of the document
    and merges the files that it lists, in their order: when the files
    load, and no name is set twice among the rest of the document and
    the files, it returns, and the document holds its other sections and
    the sections of the files.  The files are loaded one level deep: an
    [INCLUDES] section of a file is merged like any other. *)
Theorem load_includes_merges self (paths : list value)
    (others : list FourCInput) :
  codec_laws E -> reachable E self ->
  lookup self "INCLUDES" = Some (VList paths) ->
  Forall2 (fun p o => from_4C_yaml E load_yaml p false = Ok o) paths others ->
  NoDup (names (removed "INCLUDES" self) ++ mjoin (names <$> others)) ->
  exists self',
    load_includes E load_yaml self = (Ok (), self')
    /\ forall n v, lookup self' n = Some v <->
         (n ≠ "INCLUDES" /\ lookup self n = Some v)
         \/ exists o, o ∈ others /\ lookup o n = Some v.
Proof.
  intros laws Hs Hinc Hf Hnd.
  pose proof (reachable_wf E self Hs) as Hwf.
  assert (reachable E (removed "INCLUDES" self)) as Hr.
  { replace (removed "INCLUDES" self)
      with (pop E "INCLUDES" (Some VNone) self).2
      by by rewrite (pop_set E _ _ _ _ Hwf Hinc).
    by constructor. }
  assert (forall n v, lookup (removed "INCLUDES" self) n = Some v <->
            n ≠ "INCLUDES" /\ lookup self n = Some v) as Hrem.
  { intros n v. rewrite (lookup_removed E) by done.
    case_decide; subst; [split; [done|by intros [? _]]|].
    split; [intros ?; split; [congruence|done]|by intros [_ ?]]. }
  unfold load_includes, bind at 1.
  rewrite (pop_set E _ _ _ _ Hwf Hinc). simpl.
  destruct paths as [|p paths].
  - apply Forall2_nil_inv_l in Hf as ->.
    exists (removed "INCLUDES" self). split; [done|]. intros n v.
    rewrite Hrem. split; [by left|].
    by intros [?|(o & ?%elem_of_nil & _)].
  - rewrite bool_decide_eq_false_2 by done. simpl.
    unfold bind at 1, lift at 1. simpl.
    destruct (load_includes_loop (p :: paths) others _ laws Hr Hf Hnd)
      as (d' & Hrun & Hl).
    exists d'. split; [done|]. intros n v. by rewrite Hl, Hrem.
Qed.

(** Without an [INCLUDES] section, or with one that is empty or
    [None], [load_includes] loads nothing: it returns, and the document
    is what it was, less that section.  The name has to be in the
    catalog when the section is not set. *)
Theorem load_includes_nothing_to_load self :
  reachable E self ->
  (lookup self "INCLUDES" = None /\ "INCLUDES" ∈ ALL_SECTIONS E)
  \/ (exists v, lookup self "INCLUDES" = Some v /\ truthy v = false) ->
  exists self',
    load_includes E load_yaml self = (Ok (), self')
    /\ forall n, lookup self' n
                 = if decide (n = "INCLUDES") then None else lookup self n.
Proof.
  intros Hwf%reachable_wf [[Hnone Hcat]|(v & Hv & Hfalse)].
  - exists self. split.
    + rewrite (lookup_partitions E) in Hnone by done.
      unfold load_includes, bind, pop, known_sections.
      destruct (get "INCLUDES" (_sections self)); [done|]. rewrite Hnone.
      by rewrite bool_decide_eq_true_2.
    + intros n. by case_decide; subst.
  - exists (removed "INCLUDES" self). split.
    + unfold load_includes, bind.
      by rewrite (pop_set E _ _ _ _ Hwf Hv), Hfalse.
    + intros n. rewrite (lookup_removed E) by done.
      by repeat case_decide; subst.
Qed.

Lemma for_each_app {A} (l1 l2 : list A) (body : A -> M unit) d d1 :
  for_each l1 body d = (Ok (), d1) ->
  for_each (l1 ++ l2) body d = for_each l2 body d1.
Proof.
  revert d. induction l1 as [|x l1 IH]; intros d.
  - by intros [= <-].
  - rewrite <-app_comm_cons, !for_each_cons.
    destruct (body x d) as [[[]|?] d0]; [apply IH|done].
Qed.

(** [load_includes] is not undone when a file does not load: it raises
    the exception of the load, and the document is left without its
    [INCLUDES] section and with the sections of the files before the
    failing one. *)
Theorem load_includes_file_fails self (pre : list value) p (rest : list value)
    (others : list FourCInput) err :
  codec_laws E -> reachable E self ->
  lookup self "INCLUDES" = Some (VList (pre ++ p :: rest)) ->
  Forall2 (fun p o => from_4C_yaml E load_yaml p false = Ok o) pre others ->
  NoDup (names (removed "INCLUDES" self) ++ mjoin (names <$> others)) ->
  from_4C_yaml E load_yaml p false = Err err ->
  exists self',
    load_includes E load_yaml self = (Err err, self')
    /\ forall n v, lookup self' n = Some v <->
         (n ≠ "INCLUDES" /\ lookup self n = Some v)
         \/ exists o, o ∈ others /\ lookup o n = Some v.
Proof.
  intros laws Hs Hinc Hf Hnd Hp.
  pose proof (reachable_wf E self Hs) as Hwf.
  assert (reachable E (removed "INCLUDES" self)) as Hr.
  { replace (removed "INCLUDES" self)
      with (pop E "INCLUDES" (Some VNone) self).2
      by by rewrite (pop_set E _ _ _ _ Hwf Hinc).
    by constructor. }
  assert (forall n v, lookup (removed "INCLUDES" self) n = Some v <->
            n ≠ "INCLUDES" /\ lookup self n = Some v) as Hrem.
  { intros n v. rewrite (lookup_removed E) by done.
    case_decide; subst; [split; [done|by intros [? _]]|].
    split; [intros ?; split; [congruence|done]|by intros [_ ?]]. }
  destruct (load_includes_loop pre others _ laws Hr Hf Hnd) as (d' & Hrun & Hl).
  exists d'. split; [|intros n v; by rewrite Hl, Hrem].
  unfold load_includes, bind at 1.
  rewrite (pop_set E _ _ _ _ Hwf Hinc). simpl.
  rewrite bool_decide_eq_false_2 by by destruct pre.
  simpl. unfold bind at 1, lift at 1. simpl.
  rewrite (for_each_app _ _ _ _ _ Hrun), for_each_cons.
  unfold bind at 1, lift at 1. by rewrite Hp.
Qed.

End FileFacts.

(** ** Dumping into two files *)

Section IncludeFiles.
Context (E : Env).
Import PyDict PyDictFacts.
Local Open Scope list_scope.

Implicit Types (self d : FourCInput) (k n key : string) (v w : value).

(** The converter keeps the keys of a dictionary, and their order. *)
Hypothesis converter_keys :
  forall m m' : pydict, type_converter E (VDict m) = VDict m' -> keys m' = keys m.

(** The mapping that [dump] hands to [dump_yaml] lists the structured
    sections of the document, then its legacy sections. *)
Lemma dump_keys self sort_sections validate_flag validate_sections_only
    convert_flag data sort self' :
  wf E self ->
  dump E sort_sections validate_flag validate_sections_only convert_flag self
    = (Ok (data, sort), self') ->
  sort = sort_sections
  /\ keys data = keys (_sections self) ++ keys (_legacy_sections self).
Proof.
  intros Hwf Hdump.
  assert (same_keys self self'
          /\ rbind (inlined E self') (fun data => Ok (data, sort_sections))
             = Ok (data, sort)) as [Hk Hin].
  { unfold dump, bind, lift, this, ret in Hdump.
    destruct (validate_flag || validate_sections_only).
    - pose proof (validate_keys E converter_keys (json_schema E)
                    validate_sections_only convert_flag self) as Hv.
      destruct (validate E _ _ _ self) as [[b|?] self1]; [|done].
      assert ((if true && convert_flag then false else convert_flag) = false)
        as Hf by by destruct convert_flag.
      rewrite Hf in Hdump.
      destruct (inlined E self1) eqn:Hi; simplify_eq. by rewrite Hi.
    - simpl in Hdump. destruct convert_flag.
      + pose proof (convert_to_native_types_keys E converter_keys self) as Hc.
        destruct (convert_to_native_types E self) as [[[]|?] self1]; [|done].
        destruct (inlined E self1) eqn:Hi; simplify_eq. by rewrite Hi.
      + destruct (inlined E self) eqn:Hi; simplify_eq. by rewrite Hi. }
  destruct (inlined_keys E self self' data sort_sections sort Hwf Hk Hin)
    as (? & ? & _).
  done.
Qed.

Lemma append_item_store key s self self' :
  append_item E key s self = (Ok (), self') ->
  exists w, self' = store E key w self.
Proof.
  unfold append_item, store.
  destruct (getitem E self key) as [[]|]; try done.
  destruct (is_section_known E key); intros [= <-]; eauto.
Qed.

Lemma add_include_names split_input_file_path d d' :
  wf E d ->
  add_include E split_input_file_path d = (Ok (), d') ->
  wf E d' /\ forall k, k ∈ names d' <-> k = "INCLUDES" \/ k ∈ names d.
Proof.
  intros Hwf. unfold add_include, bind, this, ret.
  destruct (contains d "INCLUDES") eqn:Hc.
  - intros (w & ->)%append_item_store. split; [by apply store_wf|].
    intros k. by rewrite elem_of_names_store.
  - rewrite setitem_spec. destruct (section_value E _ _) as [w0|]; [|done].
    intros (w & ->)%append_item_store. split; [by do 2 apply store_wf|].
    intros k. rewrite !elem_of_names_store. tauto.
Qed.

(** When [dump_with_includes] returns, it has written two files, the
    root file first, each with the [sort_sections] it was given.  The
    root file holds [INCLUDES] and the sections that are not listed in
    [section_names], the other file the listed ones; with
    [invert_sections] it is the other way round, [INCLUDES] staying in
    the root file. *)
Theorem dump_with_includes_files (section_names : list string)
    root_input_file_path split_input_file_path
    (invert_sections sort_sections validate_flag : bool) self calls :
  reachable E self ->
  dump_with_includes E section_names root_input_file_path
    split_input_file_path invert_sections sort_sections validate_flag self
    = (Ok (), calls) ->
  exists root_data split_data,
    calls = [(root_input_file_path, (root_data, sort_sections));
             (split_input_file_path, (split_data, sort_sections))]
    /\ (forall k, k ∈ keys root_data <->
          k = "INCLUDES"
          \/ (if invert_sections then k ∈ section_names
              else contains self k = true /\ k ∉ section_names))
    /\ (forall k, k ∈ keys split_data <->
          if invert_sections
          then contains self k = true /\ k ∉ section_names
          else k ∈ section_names).
Proof.
  intros Hwf%reachable_wf. unfold dump_with_includes.
  destruct (split E section_names self).1 as [[first second]|] eqn:Hsp; [|done].
  unfold split, copy in Hsp. simpl in Hsp.
  destruct (split_loop_invariant E (wf E) _ _ _ _ _
              (fun key v d => setitem_wf E key v d)
              (fun key dv d => pop_wf E key dv d) Hwf (new_wf E) Hsp)
    as [Hw1 Hw2].
  assert (forall k, k ∈ names first <->
            contains self k = true /\ k ∉ section_names) as Hfirst.
  { apply split_loop_root in Hsp as (_ & _ & Hl); [|done]. intros k.
    rewrite (elem_of_names E), Hl, contains_true, (elem_of_names E) by done.
    case_decide; [|tauto]. split; [by intros [? ?]|tauto]. }
  assert (forall k, k ∈ names second <-> k ∈ section_names) as Hsecond.
  { intros k. rewrite (split_loop_extracted E _ _ _ _ _ Hsp k).
    unfold names, new. simpl. rewrite elem_of_nil. tauto. }
  assert (forall iw sp,
            wf E iw -> wf E sp ->
            match add_include E split_input_file_path iw with
            | (Err e, _) => (Err e, [])
            | (Ok _, input_with_includes) =>
                match dump E sort_sections validate_flag false true
                        input_with_includes with
                | (Err e, _) => (Err e, [])
                | (Ok root_call, _) =>
                    match dump E sort_sections validate_flag false true sp with
                    | (Err e, _) => (Err e, [(root_input_file_path, root_call)])
                    | (Ok split_call, _) =>
                        (Ok (), [(root_input_file_path, root_call);
                                 (split_input_file_path, split_call)])
                    end
                end
            end = (Ok (), calls) ->
            exists root_data split_data,
              calls = [(root_input_file_path, (root_data, sort_sections));
                       (split_input_file_path, (split_data, sort_sections))]
              /\ (forall k, k ∈ keys root_data <->
                    k = "INCLUDES" \/ k ∈ names iw)
              /\ (forall k, k ∈ keys split_data <-> k ∈ names sp)) as Hgo.
  { intros iw sp Hiw Hwsp.
    destruct (add_include E split_input_file_path iw) as [[[]|?] iw'] eqn:Hadd;
      [|done].
    apply add_include_names in Hadd as [Hiw' Hn]; [|done].
    destruct (dump E _ _ _ _ iw') as [[[d1 s1]|?] ?] eqn:Hd1; [|done].
    destruct (dump E _ _ _ _ sp) as [[[d2 s2]|?] ?] eqn:Hd2; [|done].
    apply dump_keys in Hd1 as [-> Hk1]; [|done].
    apply dump_keys in Hd2 as [-> Hk2]; [|done].
    intros [= <-]. exists d1, d2. split_and!; [done| |].
    - intros k. rewrite <-Hn, Hk1. unfold names. rewrite !elem_of_app. tauto.
    - intros k. rewrite Hk2. unfold names. rewrite !elem_of_app. tauto. }
  destruct invert_sections; simpl; intros Hrun.
  - destruct (Hgo second first Hw2 Hw1 Hrun) as (d1 & d2 & -> & H1 & H2).
    exists d1, d2. split_and!; [done| |].
    + intros k. by rewrite H1, Hsecond.
    + intros k. by rewrite H2, Hfirst.
  - destruct (Hgo first second Hw1 Hw2 Hrun) as (d1 & d2 & -> & H1 & H2).
    exists d1, d2. split_and!; [done| |].
    + intros k. by rewrite H1, Hfirst.
    + intros k. by rewrite H2, Hsecond.
Qed.

(** [dump_with_includes] writes no file when a listed name is not set
    in the document, or is listed twice: the split raises first. *)
Theorem dump_with_includes_unset (section_names : list string)
    root_input_file_path split_input_file_path
    (invert_sections sort_sections validate_flag : bool) self :
  reachable E self ->
  (exists n, n ∈ section_names /\ contains self n = false)
  \/ ~ NoDup section_names ->
  exists err : exn,
    dump_with_includes E section_names root_input_file_path
      split_input_file_path invert_sections sort_sections validate_flag self
    = (Err err, []).
Proof.
  intros Hwf%reachable_wf Hbad. unfold dump_with_includes.
  destruct (split E section_names self).1 as [[first second]|e] eqn:Hsp;
    [|by exists e].
  unfold split, copy in Hsp. simpl in Hsp. exfalso.
  destruct Hbad as [(n & Hn & Hc)|Hdup].
  - apply split_loop_root in Hsp as (_ & Hset & _); [|done].
    apply contains_false in Hc. apply Hc. apply (elem_of_names E); auto.
  - apply Hdup. by eapply split_loop_NoDup.
Qed.

End IncludeFiles.

(** ** Further examples *)

Section FurtherExamples.
Import PyDict PyDictFacts.
Local Open Scope list_scope.

Lemma contains_iff_getitem_witness :
  contains Sample.doc "PARTICLES" = true
  <-> exists v, getitem Sample.env Sample.doc "PARTICLES" = Ok v.
Proof.
  apply (contains_iff_getitem Sample.env Sample.doc "PARTICLES").
  apply sample_doc_reachable.
Defined.

Lemma raise_keeps_document_witness :
  (setitem Sample.env "PROBLEM TYP" VNone Sample.doc).2 = Sample.doc
  /\ (pop Sample.env "PROBLEM TYP" None Sample.doc).2 = Sample.doc.
Proof.
  destruct (raise_keeps_document Sample.env "PROBLEM TYP" VNone None Sample.doc
              (UnknownSectionException
                 "Unknown section 'PROBLEM TYP'. Did you mean 'PROBLEM TYPE'? Call FourCInputFile.known_sections for a complete list."))
    as [H1 H2].
  split; [apply H1|apply H2]; vm_compute; reflexivity.
Defined.

Lemma setitem_twice_witness :
  setitem Sample.env "IO" (VDict []) Sample.doc
  = (Ok (), {| _sections := [("IO", VDict []); ("TITLE", Sample.title_section)];
               _legacy_sections := [("PARTICLES", Sample.particle_records)] |}).
Proof.
  apply (setitem_twice Sample.env "IO" (VList []) (VDict []) Sample.doc
           {| _sections := [("IO", VList []); ("TITLE", Sample.title_section)];
              _legacy_sections := [("PARTICLES", Sample.particle_records)] |});
    vm_compute; reflexivity.
Defined.

Lemma pop_after_setitem_witness :
  exists w,
    getitem Sample.env Sample.doc "PARTICLES" = Ok w
    /\ pop Sample.env "PARTICLES" None Sample.doc = (Ok w, Sample.doc_header).
Proof.
  apply (pop_after_setitem Sample.env "PARTICLES" Sample.particle_lines None
           Sample.doc_header Sample.doc);
    vm_compute; reflexivity.
Defined.

Lemma get_section_names_sorted_witness :
  Sorted String.le (get_section_names Sample.doc)
  /\ NoDup (get_section_names Sample.doc)
  /\ forall n, n ∈ get_section_names Sample.doc <-> contains Sample.doc n = true.
Proof.
  apply (get_section_names_sorted Sample.env Sample.doc sample_doc_reachable).
Defined.

Lemma items_order_witness :
  keys (items Sample.doc)
  = keys (_sections Sample.doc) ++ keys (_legacy_sections Sample.doc)
  /\ NoDup (keys (items Sample.doc))
  /\ forall k v, (k, v) ∈ items Sample.doc
                 <-> getitem Sample.env Sample.doc k = Ok v.
Proof.
  apply (items_order Sample.env Sample.doc sample_doc_reachable).
Defined.

Lemma overwrite_sections_last_wins_witness :
  exists d',
    overwrite_sections Sample.env (OtherInput Sample.doc_header) Sample.doc
    = (Ok (), d')
    /\ forall n, lookup d' n = match lookup Sample.doc_header n with
                                | Some v => Some v
                                | None => lookup Sample.doc n
                                end.
Proof.
  apply (overwrite_sections_last_wins Sample.env Sample.doc Sample.doc_header
           sample_laws sample_doc_reachable sample_doc_header_reachable).
Defined.

Lemma add_commutes_witness :
  exists a b,
    add Sample.env Sample.doc_header Sample.doc_particles = Ok a
    /\ add Sample.env Sample.doc_particles Sample.doc_header = Ok b
    /\ input_eq a b.
Proof.
  apply (add_commutes Sample.env Sample.doc_header Sample.doc_particles
           sample_laws sample_doc_header_reachable
           sample_doc_particles_reachable sample_halves_disjoint).
Defined.

Lemma split_exact_witness :
  NoDup ["PARTICLES"]
  /\ (forall n, n ∈ ["PARTICLES"] -> contains Sample.doc n = true)
  /\ (forall k, contains Sample.doc_particles k = true <-> k ∈ ["PARTICLES"])
  /\ (forall k, contains Sample.doc_header k = true <->
                contains Sample.doc k = true /\ k ∉ ["PARTICLES"]).
Proof.
  apply (split_exact Sample.env ["PARTICLES"] Sample.doc Sample.doc_header
           Sample.doc_particles sample_doc_reachable).
  vm_compute. reflexivity.
Defined.

Lemma extract_header_sections_witness :
  extract_header Sample.env Sample.doc = Ok Sample.doc_header.
Proof.
  exact (proj2 (extract_header_sections Sample.env Sample.doc
                  sample_doc_reachable) sample_laws).
Defined.

Lemma validate_returns_witness :
  exists inl,
    inline_legacy_sections Sample.env (_legacy_sections Sample.doc) = Ok inl
    /\ forall k v, (k, v) ∈ inl ->
         exists l, iter_values v = Ok l /\ Forall (fun x => is_str x = true) l.
Proof.
  destruct (validate_returns Sample.env (json_schema Sample.env) true true
              Sample.doc true Sample.doc) as (_ & _ & _ & H);
    [vm_compute; reflexivity|exact H].
Defined.

Lemma setitem_unknown_hint_witness :
  exists m,
    m ∈ ALL_SECTIONS Sample.env
    /\ Difflib.ge_cutoff
         (Difflib.ratio (list_ascii_of_string m)
            (list_ascii_of_string (upper "Problem Typ"))) = true
    /\ "Unknown section 'Problem Typ'. Did you mean 'PROBLEM TYPE'? Call FourCInputFile.known_sections for a complete list."
       = ("Unknown section '" ++ "Problem Typ" ++ "'. Did you mean '" ++ m
            ++ "'? Call FourCInputFile.known_sections for a complete list.")%string.
Proof.
  apply (setitem_unknown_hint Sample.env "Problem Typ" VNone Sample.doc).
  - vm_compute. reflexivity.
  - apply (bool_decide_unpack _). vm_compute. exact I.
  - vm_compute. reflexivity.
Defined.

Lemma interpret_legacy_sections_in_place_witness :
  match interpret_legacy_sections Sample.env
          [("PARTICLES", Sample.particle_lines);
           ("NODE COORDS", VList [VStr "NODE 1 COORD 0.0 0.0 0.0"])] with
  | (Ok r, d') =>
      r = d'
      /\ Forall2 (interpreted Sample.env)
           [("PARTICLES", Sample.particle_lines);
            ("NODE COORDS", VList [VStr "NODE 1 COORD 0.0 0.0 0.0"])] d'
  | (Err e, d') =>
      exists pre pre' k v rest,
        [("PARTICLES", Sample.particle_lines);
         ("NODE COORDS", VList [VStr "NODE 1 COORD 0.0 0.0 0.0"])]
        = pre ++ (k, v) :: rest
        /\ interpret_legacy_section Sample.env k v = Err e
        /\ d' = pre' ++ (k, v) :: rest
        /\ Forall2 (interpreted Sample.env) pre pre'
  end.
Proof.
  apply (interpret_legacy_sections_in_place Sample.env).
  apply (bool_decide_unpack _). vm_compute. exact I.
Defined.



Lemma sample_legacy_not_known n :
  n ∈ LEGACY_SECTIONS Sample.env -> is_section_known Sample.env n = false.
Proof.
  revert n. apply Forall_forall. apply (bool_decide_unpack _).
  vm_compute. exact I.
Qed.

Lemma from_4C_yaml_header_only_witness :
  from_4C_yaml Sample.env SampleFiles.load_yaml (VStr "doc.4C.yaml") true
  = Ok Sample.doc_header.
Proof.
  apply (from_4C_yaml_header_only Sample.env SampleFiles.load_yaml
           (VStr "doc.4C.yaml") Sample.doc_source Sample.doc
           sample_legacy_not_known).
  - vm_compute. reflexivity.
  - apply (bool_decide_unpack _). vm_compute. exact I.
  - vm_compute. reflexivity.
Defined.

Lemma from_4C_yaml_empty_file_witness :
  from_4C_yaml Sample.env SampleFiles.load_yaml (VStr "empty.4C.yaml") false
  = Ok new
  /\ from_4C_yaml Sample.env SampleFiles.load_yaml (VStr "empty.4C.yaml") true
     = Err (AttributeError "'NoneType' object has no attribute 'pop'").
Proof.
  apply (from_4C_yaml_empty_file Sample.env SampleFiles.load_yaml
           (VStr "empty.4C.yaml")).
  - vm_compute. reflexivity.
  - discriminate.
Defined.

Lemma sample_with_includes_reachable paths :
  reachable Sample.env (SampleFiles.with_includes paths).
Proof.
  apply (built_from_reachable _ [("INCLUDES", VList (VStr <$> paths));
                                 ("IO", Sample.io_section);
                                 ("TITLE", Sample.title_section)]).
  reflexivity.
Qed.

Lemma load_includes_merges_witness :
  exists self',
    load_includes Sample.env SampleFiles.load_yaml
      (SampleFiles.with_includes ["particles.4C.yaml"]) = (Ok (), self')
    /\ forall n v, lookup self' n = Some v <->
         (n ≠ "INCLUDES"
          /\ lookup (SampleFiles.with_includes ["particles.4C.yaml"]) n = Some v)
         \/ exists o, o ∈ [Sample.doc_particles] /\ lookup o n = Some v.
Proof.
  apply (load_includes_merges Sample.env SampleFiles.load_yaml
           (SampleFiles.with_includes ["particles.4C.yaml"])
           [VStr "particles.4C.yaml"] [Sample.doc_particles] sample_laws
           (sample_with_includes_reachable ["particles.4C.yaml"])).
  - vm_compute. reflexivity.
  - repeat constructor.
  - apply (bool_decide_unpack _). vm_compute. exact I.
Defined.

Lemma load_includes_nothing_to_load_witness :
  exists self',
    load_includes Sample.env SampleFiles.load_yaml Sample.doc = (Ok (), self')
    /\ forall n, lookup self' n
                 = if decide (n = "INCLUDES") then None else lookup Sample.doc n.
Proof.
  apply (load_includes_nothing_to_load Sample.env SampleFiles.load_yaml
           Sample.doc sample_doc_reachable).
  left. split; [vm_compute; reflexivity|].
  apply (bool_decide_unpack _). vm_compute. exact I.
Defined.

Lemma load_includes_file_fails_witness :
  exists self',
    load_includes Sample.env SampleFiles.load_yaml
      (SampleFiles.with_includes ["particles.4C.yaml"; "mesh.4C.yaml"])
    = (Err (ExternalError "FileNotFoundError: mesh.4C.yaml"), self')
    /\ forall n v, lookup self' n = Some v <->
         (n ≠ "INCLUDES"
          /\ lookup (SampleFiles.with_includes
                       ["particles.4C.yaml"; "mesh.4C.yaml"]) n = Some v)
         \/ exists o, o ∈ [Sample.doc_particles] /\ lookup o n = Some v.
Proof.
  apply (load_includes_file_fails Sample.env SampleFiles.load_yaml
           (SampleFiles.with_includes ["particles.4C.yaml"; "mesh.4C.yaml"])
           [VStr "particles.4C.yaml"] (VStr "mesh.4C.yaml") []
           [Sample.doc_particles] _ sample_laws
           (sample_with_includes_reachable
              ["particles.4C.yaml"; "mesh.4C.yaml"])).
  - vm_compute. reflexivity.
  - repeat constructor.
  - apply (bool_decide_unpack _). vm_compute. exact I.
  - vm_compute. reflexivity.
Defined.

Lemma dump_with_includes_files_witness :
  exists root_data split_data,
    SampleFiles.doc_calls
    = [("root.4C.yaml", (root_data, false));
       ("particles.4C.yaml", (split_data, false))]
    /\ (forall k, k ∈ keys root_data <->
          k = "INCLUDES"
          \/ (contains Sample.doc k = true /\ k ∉ ["PARTICLES"]))
    /\ (forall k, k ∈ keys split_data <-> k ∈ ["PARTICLES"]).
Proof.
  apply (dump_with_includes_files Sample.env sample_converter_keys
           ["PARTICLES"] "root.4C.yaml" "particles.4C.yaml" false false true
           Sample.doc SampleFiles.doc_calls sample_doc_reachable).
  vm_compute. reflexivity.
Defined.

Lemma dump_with_includes_unset_witness :
  exists err : exn,
    dump_with_includes Sample.env ["MESH"] "root.4C.yaml" "mesh.4C.yaml"
      false false true Sample.doc
    = (Err err, []).
Proof.
  apply (dump_with_includes_unset Sample.env ["MESH"] "root.4C.yaml"
           "mesh.4C.yaml" false false true Sample.doc sample_doc_reachable).
  left. exists "MESH". split; [left|vm_compute; reflexivity].
Defined.

End FurtherExamples.
